(** * walgot: the entry synchronizer, the update dispatcher and the list
      filters, embedded from [main.go] (package main) and from the model
      file of package tui.

    Go's [int] is modelled by [Z]; no claim below depends on wrap-around.
    Strings are [string].  An [error] value is an [option string]
    ([None] is Go's [nil]).  A slice is a [list]. *)

From Stdlib Require Import ZArith List String Ascii Bool Lia DecimalString.
From Stdlib Require PrimFloat Uint63 DecimalPos.
Import ListNotations.

Open Scope string_scope.
Open Scope list_scope.
Open Scope Z_scope.

(** ** Shared data: [wallabago.Item] *)

Definition error := option string.

(** The fields of [wallabago.Item] the two packages look at.  The two
    timestamps are kept as seconds since the epoch. *)
Record Item := mkItem {
  ID : Z;
  Title : string;
  DomainName : string;
  Content : string;
  IsArchived : Z;
  IsStarred : Z;
  CreatedAt : Z;
  UpdatedAt : Z
}.

(** [strconv.Itoa]. *)
Definition Itoa (z : Z) : string := NilZero.string_of_int (Z.to_int z).

(** A [table.Row] is a slice of cells. *)
Definition Row := list string.

(** One page request as the remote API sees it: page size, page number,
    sort field and sort order. *)
Record Request := mkRequest {
  rqPerPage : Z;
  rqPage : Z;
  rqSort : string;
  rqOrder : string
}.

(** The page numbers [for i := 1; i < nbCalls+1; i++] walks through. *)
Definition pagesUpTo (nbCalls : Z) : list Z :=
  map Z.of_nat (seq 1 (Z.to_nat nbCalls)).

(** ** Package main ([main.go]) *)

Module Main.

Record walgotTableFilters := mkFilters {
  Archived : bool;
  Starred : bool;
  Unread : bool
}.

Record walgotTableOptions := mkOptions {
  Filters : walgotTableFilters
}.

Record termSize := mkTermSize { Width : Z; Height : Z }.

(** [model].  Of the bubbles sub-models only the rows of the table are
    kept ([Table.SetRows]); the viewport and the spinner are rendering
    state. *)
Record model := mkModel {
  TableRows : list Row;
  Entries : list Item;
  Ready : bool;
  Reloading : bool;
  SelectedID : Z;
  TermSize : termSize;
  CurrentView : string;
  Options : walgotTableOptions;
  TotalEntriesOnServer : Z
}.

Section Rows.

(** The two rendering calls of [getTableRows] that leave the program:
    [lipgloss.NewStyle().Bold(true).Render] and
    [UpdatedAt.Time.Format("2006-02-01")]. *)
Variable renderBold : string -> string.
Variable formatDate : Z -> string.

(** The three [continue] guards of the loop body, in source order. *)
Definition skipped (filters : walgotTableFilters) (it : Item) : bool :=
  if Unread filters && negb (IsArchived it =? 0) then true
  else if Starred filters && negb (IsStarred it =? 1) then true
  else if Archived filters && negb (IsArchived it =? 1) then true
  else false.

(** The row built at the end of the loop body. *)
Definition tableRow (it : Item) : Row :=
  let s := if IsStarred it =? 1 then "⭐" else " " in
  let a := if IsArchived it =? 1 then "✓" else " " in
  let title := if IsArchived it =? 1 then Title it
               else renderBold (Title it) in
  [Itoa (ID it); title; DomainName it; s; a; formatDate (UpdatedAt it)].

(** [getTableRows]: [r] starts empty and grows by [append] while [i]
    walks the slice. *)
Definition getTableRows (items : list Item)
    (filters : walgotTableFilters) : list Row :=
  fold_left
    (fun r it => if skipped filters it then r else r ++ [tableRow it])
    items [].

(** [listViewFiltersUpdate]: the three [if msg == ...] blocks run one
    after the other on the same model, then the rows are recomputed. *)
Definition setFilters (m : model) (f : walgotTableFilters) : model :=
  mkModel (TableRows m) (Entries m) (Ready m) (Reloading m)
          (SelectedID m) (TermSize m) (CurrentView m) (mkOptions f)
          (TotalEntriesOnServer m).

Definition setRows (m : model) (rows : list Row) : model :=
  mkModel rows (Entries m) (Ready m) (Reloading m)
          (SelectedID m) (TermSize m) (CurrentView m) (Options m)
          (TotalEntriesOnServer m).

Definition onU (f : walgotTableFilters) : walgotTableFilters :=
  let f1 := mkFilters (Archived f) (Starred f) (negb (Unread f)) in
  if Unread f1 then mkFilters false (Starred f1) (Unread f1) else f1.

Definition onS (f : walgotTableFilters) : walgotTableFilters :=
  mkFilters (Archived f) (negb (Starred f)) (Unread f).

Definition onA (f : walgotTableFilters) : walgotTableFilters :=
  let f1 := mkFilters (negb (Archived f)) (Starred f) (Unread f) in
  if Archived f1 then mkFilters (Archived f1) (Starred f1) false else f1.

Definition listViewFiltersUpdate (msg : string) (m : model) : model :=
  let f0 := Filters (Options m) in
  let f1 := if String.eqb msg "u" then onU f0 else f0 in
  let f2 := if String.eqb msg "s" then onS f1 else f1 in
  let f3 := if String.eqb msg "a" then onA f2 else f2 in
  let m' := setFilters m f3 in
  setRows m' (getTableRows (Entries m') (Filters (Options m'))).

End Rows.

(** The messages package main sends itself. *)
Inductive Msg :=
| KeyMsg (key : string)
| WindowSizeMsg (w h : Z)
| SpinnerTickMsg
| wallabagoResponseNbEntitiesMsg (n : Z)
| wallabagoResponseEntitiesMsg (entries : list Item)
| walgotSelectRowMsg (id : Z).

(** A callback either hands a message back to the event loop or ends
    the process ([os.Exit]). *)
Inductive Outcome :=
| Returned (msg : Msg)
| Exited (code : Z).

Section Remote.

(** The wallabago client: [GetNumberOfTotalArticles] and [GetEntries]
    (archive, starred, sort, order, page, perPage, tags), each
    answering a value together with an error. *)
Variable GetNumberOfTotalArticles : Z * error.
Variable GetEntries :
  Z -> Z -> string -> string -> Z -> Z -> string -> list Item * error.

(** [requestWallabagNbEntries]; the lines printed and logged on the
    way are left out. *)
Definition requestWallabagNbEntries : Outcome :=
  let (nbArticles, e) := GetNumberOfTotalArticles in
  match e with
  | Some _ => Exited 1
  | None => Returned (wallabagoResponseNbEntitiesMsg nbArticles)
  end.

Definition articleByAPICall : Z := 55.

(** The number of calls computed at the head of the callback.  The
    source compares [float64(nbCalls)] with
    [float64(nbArticles)/float64(limit)]; here the comparison is the
    one of the exact quotient, [nbCalls * limit < nbArticles].  Both
    agree as long as [nbArticles < 2^53]: the conversions are then
    exact and the rounded quotient stays above [nbCalls] whenever the
    remainder is not zero. *)
Definition requiredCalls (nbArticles limitArticleByAPICall : Z) : Z :=
  if nbArticles >? limitArticleByAPICall then
    let nbCalls := Z.quot nbArticles limitArticleByAPICall in
    if nbCalls * limitArticleByAPICall <? nbArticles
    then nbCalls + 1 else nbCalls
  else 1.

(** The same computation with the comparison as the source writes it,
    on the kernel's binary64 numbers; [float64] is the conversion of a
    non-negative [int]. *)
Definition float64 (z : Z) : PrimFloat.float :=
  PrimFloat.of_uint63 (Uint63.of_Z z).

Definition requiredCallsBinary64 (nbArticles limitArticleByAPICall : Z) : Z :=
  if nbArticles >? limitArticleByAPICall then
    let nbCalls := Z.quot nbArticles limitArticleByAPICall in
    if PrimFloat.ltb (float64 nbCalls)
         (PrimFloat.div (float64 nbArticles) (float64 limitArticleByAPICall))
    then nbCalls + 1 else nbCalls
  else 1.

(** The loop: every page is requested, an error is only logged, and
    whatever [r.Embedded.Items] holds is appended.  The second
    component lists the requests in the order they were issued. *)
Fixpoint fetchLoop (limit : Z) (pages : list Z) (entries : list Item)
    (sent : list Request) : list Item * list Request :=
  match pages with
  | [] => (entries, sent)
  | i :: rest =>
      let (items, _) := GetEntries (-1) (-1) "updated" "desc" i limit "" in
      fetchLoop limit rest (entries ++ items)
                (sent ++ [mkRequest limit i "updated" "desc"])
  end.

(** [requestWallabagEntries(nbArticles)], run as a command. *)
Definition requestWallabagEntries (nbArticles : Z) : Msg * list Request :=
  let limitArticleByAPICall := articleByAPICall in
  let nbCalls := requiredCalls nbArticles limitArticleByAPICall in
  let (entries, sent) :=
    fetchLoop limitArticleByAPICall (pagesUpTo nbCalls) [] [] in
  (wallabagoResponseEntitiesMsg entries, sent).

End Remote.

End Main.

(** ** Package tui (the model file) *)

Module Tui.

Record termSize := mkTermSize { Width : Z; Height : Z }.

Record walgotTableFilters := mkFilters {
  Archived : bool;
  Starred : bool;
  Unread : bool;
  Public : bool;
  Search : string
}.

Record walgotTableSorts := mkSorts { Field : string; Order : string }.

Record walgotTableOptions := mkOptions {
  Filters : walgotTableFilters;
  Sorts : walgotTableSorts
}.

(** [walgotDialog] without its [textinput.Model]. *)
Record walgotDialog := mkDialog {
  Message : string;
  ShowInput : bool;
  Action : string
}.

(** [model] without the bubbles sub-models (table, viewport, spinner). *)
Record model := mkModel {
  Dialog : walgotDialog;
  UpdateMessage : string;
  Ready : bool;
  Reloading : bool;
  CurrentView : string;
  Options : walgotTableOptions;
  Entries : list Item;
  SelectedID : Z;
  TotalEntriesOnServer : Z;
  NbEntriesPerAPICall : Z;
  TermSize : termSize;
  DebugMode : bool
}.

(** [tea.Msg]: the message types declared in the file, key presses, and
    one constructor for every other message of the framework. *)
Inductive Msg :=
| KeyMsg (key : string)
| FrameworkMsg (tag : string)
| wallabagoResponseErrorMsg (message : string) (wallabagoError : error)
| wallabagoResponseNbEntitiesMsg (n : Z)
| wallabagoResponseEntitiesMsg (entries : list Item)
| wallabagoResponseEntityUpdateMsg (UpdatedEntry : Item)
| wallabagoResponseClearMsg (b : bool)
| wallabagoResponseAddEntryMsg (Entry : Item)
| wallabagoResponseDeleteEntryMsg (id : Z)
| walgotSelectRowMsg (id : Z)
| walgotSearchEntryMsg (s : string).

(** [tea.Cmd] as far as [Update] builds one itself: [nil], [tea.Quit],
    [tea.Tick] with the message it fires; the sub-updaters may answer
    any other command. *)
Inductive Cmd :=
| CmdNil
| CmdQuit
| CmdTick (seconds : Z) (fires : Msg)
| CmdOther (label : string).

Definition nl : string := String (ascii_of_nat 10) EmptyString.

Definition errText (e : error) : string :=
  match e with Some s => s | None => "<nil>" end.

(** *** The world a synchronization runs in *)

(** The file at [/tmp/walgot-cache.dat]: permission bits and bytes. *)
Record CacheFile := mkCacheFile {
  fileMode : Z;
  fileData : list Byte.byte
}.

(** What the process does to the outside, in order. *)
Inductive Effect :=
| EStat
| EReadFile
| EGetEntries (r : Request)
| EOpenFile
| EEncode (entries : list Item).

Record World := mkWorld {
  cacheFile : option CacheFile;
  effects : list Effect
}.

(** The answers of the collaborators: package api, package os on the
    cache path, and encoding/gob. *)
Record Env := mkEnv {
  GetNbTotalEntries : Z * error;
  GetEntries : Z -> Z -> string -> string -> list Item * error;
  readFileError : error;
  openFileError : error;
  umask : Z;
  gobDecode : list Byte.byte -> list Item * error;
  gobEncode : list Item -> list Byte.byte * error
}.

(** State passing over the world. *)
Definition M (A : Type) : Type := World -> A * World.

Definition ret {A} (a : A) : M A := fun w => (a, w).

Definition bind {A B} (c : M A) (k : A -> M B) : M B :=
  fun w => let (a, w') := c w in k a w'.

Notation "x <- c ;; k" := (bind c (fun x => k))
  (at level 61, c at next level, right associativity).

Definition did (e : Effect) : M unit :=
  fun w => (tt, mkWorld (cacheFile w) (effects w ++ [e])).

(** A command is what the event loop runs later. *)
Definition Command := M Msg.

Section Sync.

Variable env : Env.

(** [os.Stat]: the mode when the call succeeds. *)
Definition osStat : M (option Z) :=
  _ <- did EStat ;;
  fun w => (option_map fileMode (cacheFile w), w).

(** [os.ReadFile]. *)
Definition osReadFile : M (list Byte.byte * error) :=
  _ <- did EReadFile ;;
  fun w =>
    match cacheFile w, readFileError env with
    | Some f, None => ((fileData f, None), w)
    | Some _, Some e => (([], Some e), w)
    | None, _ => (([], Some "no such file"), w)
    end.

(** [os.OpenFile(cacheFilename, O_CREATE|O_TRUNC|O_WRONLY, 0600)]: an
    existing file keeps its mode and loses its bytes, a missing one is
    created with [0600] less the umask. *)
Definition osOpenFile : M error :=
  _ <- did EOpenFile ;;
  fun w =>
    match openFileError env with
    | Some e => (Some e, w)
    | None =>
        let mode := match cacheFile w with
                    | Some f => fileMode f
                    | None => Z.ldiff 384 (umask env)
                    end in
        (None, mkWorld (Some (mkCacheFile mode [])) (effects w))
    end.

(** [gob.NewEncoder(file).Encode(entries)]. *)
Definition gobEncodeTo (entries : list Item) : M error :=
  _ <- did (EEncode entries) ;;
  fun w =>
    let (bytes, e) := gobEncode env entries in
    let file := match cacheFile w with
                | Some f => Some (mkCacheFile (fileMode f) bytes)
                | None => None
                end in
    (e, mkWorld file (effects w)).

(** [api.GetEntries] followed by [r.Embedded.Items]. *)
Definition apiGetEntries (limit i : Z) (sortField sortOrder : string)
  : M (list Item * error) :=
  _ <- did (EGetEntries (mkRequest limit i sortField sortOrder)) ;;
  ret (GetEntries env limit i sortField sortOrder).

Definition countMessage : string :=
  ("Error:" ++ nl ++
   " couldn't retrieve the total number of entries from wallabag API")%string.

(** [requestWallabagNbEntries]. *)
Definition requestWallabagNbEntries : Msg :=
  let (nbArticles, e) := GetNbTotalEntries env in
  match e with
  | Some _ => wallabagoResponseErrorMsg countMessage e
  | None => wallabagoResponseNbEntitiesMsg nbArticles
  end.

(** The helper of the package that turns a count and a page size into
    a number of calls; it is defined in another file of the package. *)
Variable getRequiredNbAPICalls : Z -> Z -> Z.

(** [info.Mode()&1<<2 != 0].  In Go [&] and [<<] sit on one precedence
    level and associate to the left: the mask [1] is applied first and
    the result is shifted. *)
Definition modeCheck (mode : Z) : bool :=
  negb (Z.shiftl (Z.land mode 1) 2 =? 0).

Definition securityMessage : string :=
  ("Error:" ++ nl ++ " couldn't read cache file for security reasons")%string.

Definition loadMessage : string :=
  ("Error:" ++ nl ++ " couldn't load the entries from cache")%string.

Definition retrieveMessage : string :=
  ("Error:" ++ nl ++ " couldn't retrieve the entries from wallabag API")%string.

Definition openMessage (e : error) : string :=
  ("Error:" ++ nl ++ " couldn't open file to cache Wallabag entries: "
     ++ "/tmp/walgot-cache.dat" ++ ": " ++ errText e)%string.

Definition encodeMessage (e : error) : string :=
  ("Error:" ++ nl ++
   " couldn't decode cache file to Wallabag entries slice: "
     ++ errText e)%string.

Section Callback.

Variables nbArticles nbEntriesPerAPICall : Z.
Variables sortField sortOrder : string.

(** The [for] loop of the returned closure: the first failing page
    ends it with that page's error. *)
Fixpoint fetchLoop (limit : Z) (pages : list Z) (entries : list Item)
  : M (error * list Item) :=
  match pages with
  | [] => ret (None, entries)
  | i :: rest =>
      r <- apiGetEntries limit i sortField sortOrder ;;
      match r with
      | (_, Some e) => ret (Some e, entries)
      | (items, None) => fetchLoop limit rest (entries ++ items)
      end
  end.

(** The closure returned at the end of [requestWallabagEntries],
    over the [entries] the cache left behind. *)
Definition fetchCommand (entries : list Item) : Command :=
  if 0 <? Z.of_nat (List.length entries) then
    ret (wallabagoResponseEntitiesMsg entries)
  else
    let limitArticleByAPICall := nbEntriesPerAPICall in
    let nbCalls := getRequiredNbAPICalls nbArticles limitArticleByAPICall in
    r <- fetchLoop limitArticleByAPICall (pagesUpTo nbCalls) entries ;;
    match r with
    | (Some e, _) =>
        ret (wallabagoResponseErrorMsg retrieveMessage (Some e))
    | (None, entries) =>
        oe <- osOpenFile ;;
        match oe with
        | Some e => ret (wallabagoResponseErrorMsg (openMessage oe) oe)
        | None =>
            ee <- gobEncodeTo entries ;;
            match ee with
            | Some e =>
                ret (wallabagoResponseErrorMsg (encodeMessage ee) ee)
            | None => ret (wallabagoResponseEntitiesMsg entries)
            end
        end
    end.

(** [requestWallabagEntries]: the part that runs at once (stat, mode
    test, read, decode) and the command it answers. *)
Definition requestWallabagEntries : M Command :=
  info <- osStat ;;
  match info with
  | Some mode =>
      if modeCheck mode then
        ret (ret (wallabagoResponseErrorMsg securityMessage None))
      else
        r <- osReadFile ;;
        match r with
        | (content, None) =>
            match gobDecode env content with
            | (_, Some e) =>
                ret (ret (wallabagoResponseErrorMsg loadMessage (Some e)))
            | (entries, None) => ret (fetchCommand entries)
            end
        | (_, Some _) => ret (fetchCommand [])
        end
  | None => ret (fetchCommand [])
  end.

(** One synchronization attempt: build the command, then run it. *)
Definition sync : M Msg :=
  cmd <- requestWallabagEntries ;; cmd.

End Callback.

End Sync.

(** *** [Update] *)

Definition withDialogMessage (m : model) (text : string) : model :=
  mkModel (mkDialog text (ShowInput (Dialog m)) (Action (Dialog m)))
          (UpdateMessage m) (Ready m) (Reloading m) (CurrentView m)
          (Options m) (Entries m) (SelectedID m) (TotalEntriesOnServer m)
          (NbEntriesPerAPICall m) (TermSize m) (DebugMode m).

Definition withUpdateMessage (m : model) (text : string) : model :=
  mkModel (Dialog m) text (Ready m) (Reloading m) (CurrentView m)
          (Options m) (Entries m) (SelectedID m) (TotalEntriesOnServer m)
          (NbEntriesPerAPICall m) (TermSize m) (DebugMode m).

Definition withReloading (m : model) (b : bool) : model :=
  mkModel (Dialog m) (UpdateMessage m) (Ready m) b (CurrentView m)
          (Options m) (Entries m) (SelectedID m) (TotalEntriesOnServer m)
          (NbEntriesPerAPICall m) (TermSize m) (DebugMode m).

Definition withCurrentView (m : model) (v : string) : model :=
  mkModel (Dialog m) (UpdateMessage m) (Ready m) (Reloading m) v
          (Options m) (Entries m) (SelectedID m) (TotalEntriesOnServer m)
          (NbEntriesPerAPICall m) (TermSize m) (DebugMode m).

Definition withSelectedID (m : model) (id : Z) : model :=
  mkModel (Dialog m) (UpdateMessage m) (Ready m) (Reloading m)
          (CurrentView m) (Options m) (Entries m) id
          (TotalEntriesOnServer m) (NbEntriesPerAPICall m) (TermSize m)
          (DebugMode m).

(** A stretch of [Update] either returns or falls through with the
    model it has reached. *)
Inductive Flow :=
| Return (r : model * Cmd)
| Continue (m : model).

Section Dispatch.

(** The four view updaters and [updatedEntryInModel] live in other
    files of the package; a pointer argument is a model in, a model
    out. *)
Variable updateDialogView : Msg -> model -> model * Cmd.
Variable updateHelpView : Msg -> model -> model * Cmd.
Variable updateEntryView : Msg -> model -> model * Cmd.
Variable updateListView : Msg -> model -> model * Cmd.
Variable updatedEntryInModel : model -> Item -> model.

(** [if msg, ok := msg.(tea.KeyMsg); ok { ... }]. *)
Definition globalKeys (m : model) (msg : Msg) : Flow :=
  match msg with
  | KeyMsg key =>
      if String.eqb key "ctrl+c" then Return (m, CmdQuit)
      else if String.eqb key "?" && negb (Reloading m)
           then Return (withCurrentView m "help", CmdNil)
           else Continue m
  | _ => Continue m
  end.

(** The chain commented [Priority: Error > updates > entrySelection]. *)
Definition priorityMessages (m : model) (msg : Msg) : Flow :=
  match msg with
  | wallabagoResponseErrorMsg message _ =>
      Continue (withDialogMessage (withReloading m false) message)
  | wallabagoResponseEntityUpdateMsg UpdatedEntry =>
      Return (updatedEntryInModel m UpdatedEntry,
              CmdTick 5 (wallabagoResponseClearMsg true))
  | wallabagoResponseClearMsg true => Continue (withUpdateMessage m "")
  | walgotSelectRowMsg v => Continue (withSelectedID m v)
  | _ => Continue m
  end.

(** The tail commented [Priority order: dialog > help > detail > list]. *)
Definition viewDispatch (m : model) (msg : Msg) : model * Cmd :=
  if negb (String.eqb (Message (Dialog m)) "") then updateDialogView msg m
  else if String.eqb (CurrentView m) "help" then updateHelpView msg m
  else if SelectedID m >? 0 then updateEntryView msg m
  else updateListView msg m.

Definition Update (m : model) (msg : Msg) : model * Cmd :=
  match globalKeys m msg with
  | Return r => r
  | Continue m1 =>
      match priorityMessages m1 msg with
      | Return r => r
      | Continue m2 => viewDispatch m2 msg
      end
  end.

End Dispatch.

End Tui.

(** ** Package main: the helpers of the views *)

(** [strconv.Atoi] on a Go [int] that never overflows: an optional sign,
    then decimal digits only; anything else is a syntax error and
    answers 0. *)
Definition digitValue (ch : ascii) : option Z :=
  let d := Z.of_nat (nat_of_ascii ch) - 48 in
  if (0 <=? d) && (d <=? 9) then Some d else None.

Fixpoint atoiLoop (s : string) (n : Z) : option Z :=
  match s with
  | EmptyString => Some n
  | String ch rest =>
      match digitValue ch with
      | Some d => atoiLoop rest (n * 10 + d)
      | None => None
      end
  end.

Definition Atoi (s : string) : Z * error :=
  match s with
  | EmptyString => (0, Some "invalid syntax")
  | String c rest =>
      let digits :=
        if Ascii.eqb c "-" || Ascii.eqb c "+" then rest else s in
      match digits with
      | EmptyString => (0, Some "invalid syntax")
      | _ =>
          match atoiLoop digits 0 with
          | Some n => (if Ascii.eqb c "-" then - n else n, None)
          | None => (0, Some "invalid syntax")
          end
      end
  end.

(** [table.Column] of the bubbles table. *)
Module table.
Record Column := mkColumn { Title : string; Width : Z }.
End table.

Module MainViews.

(** [createViewTableColumns].  [maxWidth / 20] is the division of two
    [int]s, which truncates; converting the result to [float64] and
    taking [math.Floor] gives it back as long as [float64] holds it
    exactly, which it does for every width below 2^53. *)
Definition createViewTableColumns (maxWidth : Z) : list table.Column :=
  let baseWidth := Z.quot maxWidth 20 in
  [table.mkColumn "ID" (baseWidth * 2);
   table.mkColumn "Title" (baseWidth * 10);
   table.mkColumn "Domain" (baseWidth * 4);
   table.mkColumn "⭐" baseWidth;
   table.mkColumn "✓" baseWidth;
   table.mkColumn "Updated date" (baseWidth * 2)].

(** [getSelectedEntryIndex]: the loop with its counter [i]. *)
Fixpoint searchFrom (i : Z) (entries : list Item) (id : Z) : Z :=
  match entries with
  | [] => -1
  | e :: rest => if ID e =? id then i else searchFrom (i + 1) rest id
  end.

Definition getSelectedEntryIndex (entries : list Item) (id : Z) : Z :=
  searchFrom 0 entries id.

(** [entries[index]]: [None] stands for the run-time panic of an index
    out of range. *)
Definition atIndex (entries : list Item) (index : Z) : option Item :=
  if index <? 0 then None else nth_error entries (Z.to_nat index).

Section Detail.

(** [html2text.FromString] with its options, [wordwrap.String] and the
    lipgloss rendering of the title. *)
Variable FromString : string -> string * error.
Variable wordwrapString : string -> Z -> string.
Variable renderTitle : string -> string.

(** [getSelectedEntryContent]. *)
Definition getSelectedEntryContent (entries : list Item) (index : Z)
  : option (string * error) :=
  match atIndex entries index with
  | None => None
  | Some e =>
      let (content, err) := FromString (Content e) in
      match err with
      | Some _ => Some ("", Some "Error retrieving article content")
      | None => Some (wordwrapString content 72, None)
      end
  end.

Definition twoNewlines : string :=
  String (ascii_of_nat 10) (String (ascii_of_nat 10) EmptyString).

(** [getDetailViewportContent]. *)
Definition getDetailViewportContent (selectedID : Z) (entries : list Item)
  : option string :=
  let index := getSelectedEntryIndex entries selectedID in
  if index >=? 0 then
    match getSelectedEntryContent entries index, atIndex entries index with
    | Some (content, err), Some e =>
        let articleTitle := Title e in
        let content := match err with
                       | Some _ => "Error retrieving article content"
                       | None => content
                       end in
        Some (renderTitle articleTitle ++ twoNewlines ++ content)%string
    | _, _ => None
    end
  else
    Some (renderTitle "Title loading…" ++ twoNewlines
            ++ "Content loading…")%string.

End Detail.

End MainViews.

(** ** Package main: the event loop *)

Module MainUpdate.

(** A [tea.Msg]: one of the program's own messages, or one the program
    has no case for (mouse events and the like). *)
Inductive Event :=
| Program (msg : Main.Msg)
| Foreign (tag : string).

(** [tea.Cmd] as the program builds it; [CmdWidget] carries a command a
    bubbles sub-model answered. *)
#[warnings="-register-all"]
Inductive Cmd (C : Type) :=
| CmdNil
| CmdQuit
| CmdRequestNbEntries
| CmdRequestEntries (nbArticles : Z)
| CmdSpinnerTick
| CmdSelectEntry (selectedRowID : Z)
| CmdWidget (c : C)
| CmdBatch (cmds : list (Cmd C)).

Arguments CmdNil {C}.
Arguments CmdQuit {C}.
Arguments CmdRequestNbEntries {C}.
Arguments CmdRequestEntries {C}.
Arguments CmdSpinnerTick {C}.
Arguments CmdSelectEntry {C}.
Arguments CmdWidget {C}.
Arguments CmdBatch {C}.

(** The bubbles sub-models (table, viewport, spinner) and lipgloss, as
    far as the program calls them.  [W] is their state apart from the
    rows of the table, which [Main.model] keeps. *)
Record Bubbles (W C : Type) := mkBubbles {
  tableMoveDown : Z -> list Row -> W -> W;
  tableMoveUp : Z -> list Row -> W -> W;
  tableGotoTop : list Row -> W -> W;
  tableGotoBottom : list Row -> W -> W;
  tableSelectedRow : list Row -> W -> Row;
  tableSetRows : list Row -> W -> W;
  createViewTable : Z -> Z -> W -> W;
  viewportNew : Z -> Z -> W -> W;
  viewportSetContent : string -> W -> W;
  viewportGotoTop : W -> W;
  viewportHalfViewDown : W -> W;
  viewportHalfViewUp : W -> W;
  viewportUpdate : Event -> W -> W * C;
  spinnerUpdate : Event -> W -> W * C;
  headerHeight : Main.model -> Z;
  footerHeight : Main.model -> Z;
  renderBold : string -> string;
  formatDate : Z -> string;
  FromString : string -> string * error;
  wordwrapString : string -> Z -> string;
  renderTitle : string -> string
}.

Arguments tableMoveDown {W C}.
Arguments tableMoveUp {W C}.
Arguments tableGotoTop {W C}.
Arguments tableGotoBottom {W C}.
Arguments tableSelectedRow {W C}.
Arguments tableSetRows {W C}.
Arguments createViewTable {W C}.
Arguments viewportNew {W C}.
Arguments viewportSetContent {W C}.
Arguments viewportGotoTop {W C}.
Arguments viewportHalfViewDown {W C}.
Arguments viewportHalfViewUp {W C}.
Arguments viewportUpdate {W C}.
Arguments spinnerUpdate {W C}.
Arguments headerHeight {W C}.
Arguments footerHeight {W C}.
Arguments renderBold {W C}.
Arguments formatDate {W C}.
Arguments FromString {W C}.
Arguments wordwrapString {W C}.
Arguments renderTitle {W C}.

(** The Go [model]: the fields of [Main.model] and the sub-models. *)
Record app (W : Type) := mkApp {
  core : Main.model;
  widgets : W
}.

Arguments mkApp {W}.
Arguments core {W}.
Arguments widgets {W}.

(** What one call of an updater gives: the next model with a command,
    or a run-time panic. *)
Inductive Step (W C : Type) :=
| Next (a : app W) (cmd : Cmd C)
| Panic.

Arguments Next {W C}.
Arguments Panic {W C}.

Definition withCurrentView (m : Main.model) (v : string) : Main.model :=
  Main.mkModel (Main.TableRows m) (Main.Entries m) (Main.Ready m)
    (Main.Reloading m) (Main.SelectedID m) (Main.TermSize m) v
    (Main.Options m) (Main.TotalEntriesOnServer m).

Definition withSelectedID (m : Main.model) (id : Z) : Main.model :=
  Main.mkModel (Main.TableRows m) (Main.Entries m) (Main.Ready m)
    (Main.Reloading m) id (Main.TermSize m) (Main.CurrentView m)
    (Main.Options m) (Main.TotalEntriesOnServer m).

Definition withReloading (m : Main.model) (b : bool) : Main.model :=
  Main.mkModel (Main.TableRows m) (Main.Entries m) (Main.Ready m) b
    (Main.SelectedID m) (Main.TermSize m) (Main.CurrentView m)
    (Main.Options m) (Main.TotalEntriesOnServer m).

Definition withTotal (m : Main.model) (n : Z) : Main.model :=
  Main.mkModel (Main.TableRows m) (Main.Entries m) (Main.Ready m)
    (Main.Reloading m) (Main.SelectedID m) (Main.TermSize m)
    (Main.CurrentView m) (Main.Options m) n.

Definition withEntries (m : Main.model) (es : list Item) : Main.model :=
  Main.mkModel (Main.TableRows m) es (Main.Ready m) (Main.Reloading m)
    (Main.SelectedID m) (Main.TermSize m) (Main.CurrentView m)
    (Main.Options m) (Main.TotalEntriesOnServer m).

Definition withTermSize (m : Main.model) (t : Main.termSize) : Main.model :=
  Main.mkModel (Main.TableRows m) (Main.Entries m) (Main.Ready m)
    (Main.Reloading m) (Main.SelectedID m) t (Main.CurrentView m)
    (Main.Options m) (Main.TotalEntriesOnServer m).

Definition withReady (m : Main.model) (b : bool) : Main.model :=
  Main.mkModel (Main.TableRows m) (Main.Entries m) b (Main.Reloading m)
    (Main.SelectedID m) (Main.TermSize m) (Main.CurrentView m)
    (Main.Options m) (Main.TotalEntriesOnServer m).

Section Loop.

Variables W C : Type.
Variable ui : Bubbles W C.

(** [initialModel], over the sub-models as they are first built. *)
Definition initialModel (w0 : W) : app W :=
  mkApp
    (Main.mkModel [] [] false true 0 (Main.mkTermSize 0 0) "list"
       (Main.mkOptions (Main.mkFilters false false true)) 0)
    w0.

(** [Init]. *)
Definition Init : Cmd C := CmdBatch [CmdRequestNbEntries; CmdSpinnerTick].

Definition rowsFor (m : Main.model) : list Row :=
  Main.getTableRows (renderBold ui) (formatDate ui) (Main.Entries m)
    (Main.Filters (Main.Options m)).

(** [windowSizeUpdate]: the rows set on the old table go away with it
    when the freshly created table takes its place. *)
Definition windowSizeUpdate (a : app W) : app W :=
  let m := core a in
  let h := Main.Height (Main.TermSize m) - headerHeight ui m
           - footerHeight ui m in
  let w1 := if Main.Ready m then tableSetRows ui (rowsFor m) (widgets a)
            else widgets a in
  let w2 := createViewTable ui (Main.Width (Main.TermSize m)) (h - 5) w1 in
  let contentWidth := if Main.Width (Main.TermSize m) <? 80
                      then Main.Width (Main.TermSize m) else 80 in
  let w3 := viewportNew ui contentWidth (h - 5) w2 in
  mkApp (withReady (Main.setRows m []) true) w3.

(** [updateHelpView]. *)
Definition updateHelpView (msg : Event) (a : app W) : Step W C :=
  match msg with
  | Program (Main.KeyMsg key) =>
      if String.eqb key "q"
      then Next (mkApp (withCurrentView (core a) "list") (widgets a)) CmdNil
      else Next a CmdNil
  | _ => Next a CmdNil
  end.

(** [updateEntryView]: the switch, then the viewport's own update. *)
Definition entrySwitch (msg : Event) (a : app W) : option (app W) :=
  match msg with
  | Program (Main.walgotSelectRowMsg _) =>
      let m := withCurrentView (core a) "detail" in
      match MainViews.getDetailViewportContent (FromString ui)
              (wordwrapString ui) (renderTitle ui)
              (Main.SelectedID m) (Main.Entries m) with
      | Some content =>
          Some (mkApp m (viewportSetContent ui content (widgets a)))
      | None => None
      end
  | Program (Main.KeyMsg key) =>
      if String.eqb key "q" then
        Some (mkApp (withSelectedID (withCurrentView (core a) "list") 0)
                    (viewportGotoTop ui (widgets a)))
      else if String.eqb key "j" || String.eqb key "down" then
        Some (mkApp (core a) (viewportHalfViewDown ui (widgets a)))
      else if String.eqb key "k" || String.eqb key "up" then
        Some (mkApp (core a) (viewportHalfViewUp ui (widgets a)))
      else Some a
  | _ => Some a
  end.

Definition updateEntryView (msg : Event) (a : app W) : Step W C :=
  match entrySwitch msg a with
  | None => Panic
  | Some a1 =>
      let (w, cmd) := viewportUpdate ui msg (widgets a1) in
      Next (mkApp (core a1) w) (CmdBatch [CmdWidget cmd])
  end.

Definition movedTable (f : list Row -> W -> W) (a : app W) : Step W C :=
  Next (mkApp (core a) (f (Main.TableRows (core a)) (widgets a))) CmdNil.

(** [updateListView]. *)
Definition updateListView (msg : Event) (a : app W) : Step W C :=
  match msg with
  | Program (Main.KeyMsg key) =>
      if String.eqb key "enter" then
        match tableSelectedRow ui (Main.TableRows (core a)) (widgets a) with
        | [] => Panic
        | cell :: _ => Next a (CmdSelectEntry (fst (Atoi cell)))
        end
      else if String.eqb key "j" || String.eqb key "down" then
        movedTable (tableMoveDown ui 1) a
      else if String.eqb key "pgdown" then
        movedTable (tableMoveDown ui 10) a
      else if String.eqb key "k" || String.eqb key "up" then
        movedTable (tableMoveUp ui 1) a
      else if String.eqb key "pgup" then
        movedTable (tableMoveUp ui 10) a
      else if String.eqb key "alt+[H" then
        movedTable (tableGotoTop ui) a
      else if String.eqb key "alt+[F" then
        movedTable (tableGotoBottom ui) a
      else if String.eqb key "q" then Next a CmdQuit
      else if String.eqb key "r" then
        Next (mkApp (withTotal (withReloading (core a) true) 0) (widgets a))
             CmdRequestNbEntries
      else if String.eqb key "u" || String.eqb key "s" || String.eqb key "a"
      then
        let m := Main.listViewFiltersUpdate (renderBold ui) (formatDate ui)
                   key (core a) in
        Next (mkApp m (tableSetRows ui (Main.TableRows m) (widgets a)))
             CmdNil
      else Next a CmdNil
  | Program (Main.WindowSizeMsg w h) =>
      Next (windowSizeUpdate
              (mkApp (withTermSize (core a) (Main.mkTermSize w h))
                     (widgets a)))
           CmdNil
  | Program (Main.wallabagoResponseNbEntitiesMsg n) =>
      Next (mkApp (withTotal (core a) n) (widgets a))
           (CmdBatch [CmdRequestEntries n; CmdSpinnerTick])
  | Program (Main.wallabagoResponseEntitiesMsg entries) =>
      let m := withEntries (withReloading (core a) false) entries in
      let m' := Main.setRows m (rowsFor m) in
      Next (mkApp m' (tableSetRows ui (Main.TableRows m') (widgets a)))
           CmdNil
  | Program Main.SpinnerTickMsg =>
      if Main.Reloading (core a) then
        let (w, cmd) := spinnerUpdate ui msg (widgets a) in
        Next (mkApp (core a) w) (CmdWidget cmd)
      else Next a CmdNil
  | _ => Next a CmdNil
  end.

(** [Update]. *)
Definition Update (msg : Event) (a : app W) : Step W C :=
  let quitKey := match msg with
                 | Program (Main.KeyMsg key) => String.eqb key "ctrl+c"
                 | _ => false
                 end in
  let helpKey := match msg with
                 | Program (Main.KeyMsg key) => String.eqb key "?"
                 | _ => false
                 end in
  if quitKey then Next a CmdQuit
  else if helpKey
  then Next (mkApp (withCurrentView (core a) "help") (widgets a)) CmdNil
  else
    let a1 := match msg with
              | Program (Main.walgotSelectRowMsg v) =>
                  mkApp (withSelectedID (core a) v) (widgets a)
              | _ => a
              end in
    if String.eqb (Main.CurrentView (core a1)) "help"
    then updateHelpView msg a1
    else if Main.SelectedID (core a1) >? 0 then updateEntryView msg a1
    else updateListView msg a1.

(** The loop over a sequence of messages, the commands left aside;
    [None] when a step panics. *)
Fixpoint run (a : app W) (events : list Event) : option (app W) :=
  match events with
  | [] => Some a
  | e :: rest =>
      match Update e a with
      | Next a' _ => run a' rest
      | Panic => None
      end
  end.

End Loop.

End MainUpdate.

(** ** Package main: the views *)

Module MainScreen.

Section Screen.

Variable W : Type.

(** lipgloss and the sub-models as the views call them: the style of the
    header and of the footer and the centred style, each under a width;
    [lipgloss.JoinHorizontal] around the centre; the bold and the plain
    style; the view of the spinner.  [helpView], [entryDetailView] and
    [listView] only render. *)
Variable renderTitleStyle : Z -> string -> string.
Variable renderFooterStyle : Z -> string -> string.
Variable renderCentered : Z -> string -> string.
Variable joinHorizontal : string -> string -> string.
Variable renderBold : string -> string.
Variable renderPlain : string -> string.
Variable spinnerView : W -> string.
Variables helpView entryDetailView listView : MainUpdate.app W -> string.

(** [headerView]. *)
Definition headerView (m : Main.model) : string :=
  let filters := Main.Filters (Main.Options m) in
  let subtitle := "" in
  let subtitle :=
    if negb (Main.Reloading m) && Main.Ready m then
      let subtitle := if Main.Unread filters
                      then (subtitle ++ " - Unread")%string else subtitle in
      let subtitle := if Main.Starred filters
                      then (subtitle ++ " - Starred")%string else subtitle in
      if Main.Archived filters
      then (subtitle ++ " - Archived")%string else subtitle
    else subtitle in
  let subtitle :=
    if Nat.eqb (String.length subtitle) 0 && negb (Main.Reloading m)
    then " - All" else subtitle in
  renderTitleStyle (Main.Width (Main.TermSize m))
    (joinHorizontal (renderBold "Walgot") (renderPlain subtitle)).

(** [footerView]. *)
Definition footerView (m : Main.model) : string :=
  let text := "" in
  let text :=
    if negb (Main.Reloading m) then
      ((text ++ renderBold (Itoa (Main.TotalEntriesOnServer m)))
         ++ " articles loaded from wallabag")%string
    else text in
  let text :=
    (text ++ Tui.nl
       ++ "[r]eload -- Toggles: [u]nread, [s]tarred, [a]rchived -- [h]elp (todo)")%string in
  renderFooterStyle (Main.Width (Main.TermSize m)) text.

(** [mainView]. *)
Definition mainView (a : MainUpdate.app W) : string :=
  let m := MainUpdate.core a in
  if negb (Main.Ready m) then (Tui.nl ++ "   Initializing…")%string
  else if Main.Reloading m then
    let text := "Loading all" in
    let text := if Main.TotalEntriesOnServer m >? 0
                then (text ++ " " ++ Itoa (Main.TotalEntriesOnServer m))%string
                else text in
    let text := (text ++ " entries from wallabag…")%string in
    renderCentered (Main.Width (Main.TermSize m))
      (spinnerView (MainUpdate.widgets a) ++ text)%string
  else if String.eqb (Main.CurrentView m) "help" then helpView a
  else if Main.SelectedID m >? 0 then entryDetailView a
  else listView a.

(** [View]. *)
Definition View (a : MainUpdate.app W) : string :=
  (headerView (MainUpdate.core a) ++ Tui.nl ++ mainView a ++ Tui.nl
     ++ footerView (MainUpdate.core a))%string.

End Screen.

End MainScreen.

(** ** Package tui: the model at start and the mutation commands *)

Module TuiStart.

(** The fields of [config.WalgotConfig] that [NewModel] reads. *)
Record WalgotConfig := mkConfig {
  NbEntriesPerAPICall : Z;
  DebugMode : bool;
  DefaultListViewUnread : bool;
  DefaultListViewStarred : bool;
  DefaultListViewPublic : bool
}.

(** [NewModel]; the fields the literal leaves out have Go's zero value. *)
Definition NewModel (config : WalgotConfig) : Tui.model :=
  Tui.mkModel (Tui.mkDialog "" false "") "" false true "list"
    (Tui.mkOptions
       (Tui.mkFilters false (DefaultListViewStarred config)
          (DefaultListViewUnread config) (DefaultListViewPublic config) "")
       (Tui.mkSorts "created" "desc"))
    [] 0 0 (NbEntriesPerAPICall config) (Tui.mkTermSize 0 0)
    (DebugMode config).

End TuiStart.

Module TuiCommands.

(** A call to package api made by a mutation command. *)
Inductive Call :=
| UpdateEntryCall (entryID archive starred public : Z)
| AddEntryCall (url : string)
| DeleteEntryCall (id : Z).

(** Package api, [json.Unmarshal] into an item, and the package's own
    [isValidURL], which is defined in another file. *)
Record Api := mkApi {
  UpdateEntry : Z -> Z -> Z -> Z -> list Byte.byte * error;
  AddEntry : string -> Item * error;
  DeleteEntry : Z -> error;
  jsonUnmarshal : list Byte.byte -> Item * error;
  isValidURL : string -> bool
}.

Section Commands.

Variable api : Api.

Definition updateFailedMessage : string :=
  ("Error:" ++ Tui.nl ++ " Couldn't update the selected entry")%string.

Definition invalidResponseMessage : string :=
  ("Error:" ++ Tui.nl ++ " Response from wallabago is not valid")%string.

Definition invalidURLMessage : string :=
  ("Error:" ++ Tui.nl ++ " Invalid URL")%string.

Definition addFailedMessage : string :=
  ("Error:" ++ Tui.nl ++ " Couldn't add the entry")%string.

(** [requestWallabagEntryUpdate], run as a command: the message and the
    calls made. *)
Definition requestWallabagEntryUpdate (entryID archive starred public : Z)
  : Tui.Msg * list Call :=
  let call := UpdateEntryCall entryID archive starred public in
  let (r, err) := UpdateEntry api entryID archive starred public in
  match err with
  | Some _ => (Tui.wallabagoResponseErrorMsg updateFailedMessage err, [call])
  | None =>
      let (item, err) := jsonUnmarshal api r in
      match err with
      | Some _ =>
          (Tui.wallabagoResponseErrorMsg invalidResponseMessage err, [call])
      | None => (Tui.wallabagoResponseEntityUpdateMsg item, [call])
      end
  end.

(** [requestWallabagAddEntry]. *)
Definition requestWallabagAddEntry (url : string) : Tui.Msg * list Call :=
  if negb (isValidURL api url) then
    (Tui.wallabagoResponseErrorMsg invalidURLMessage
       (Some "invalid URL given"), [])
  else
    let (r, err) := AddEntry api url in
    match err with
    | Some _ =>
        (Tui.wallabagoResponseErrorMsg addFailedMessage err,
         [AddEntryCall url])
    | None => (Tui.wallabagoResponseAddEntryMsg r, [AddEntryCall url])
    end.

(** [requestWallabagEntryDelete]; the text of its error is the one of
    the add command. *)
Definition requestWallabagEntryDelete (id : Z) : Tui.Msg * list Call :=
  match DeleteEntry api id with
  | Some e =>
      (Tui.wallabagoResponseErrorMsg addFailedMessage (Some e),
       [DeleteEntryCall id])
  | None => (Tui.wallabagoResponseDeleteEntryMsg id, [DeleteEntryCall id])
  end.

(** [selectEntryCommand]. *)
Definition selectEntryCommand (selectedRowID : Z) : Tui.Msg :=
  Tui.walgotSelectRowMsg selectedRowID.

End Commands.

End TuiCommands.

(** ** The claims' own words, as definitions *)

(** "With the unread filter active the entry's archived flag must be 0,
    with the starred filter active its starred flag must be 1, and with
    the archived filter active its archived flag must be 1", composed
    with logical AND. *)
Definition passesFilters (f : Main.walgotTableFilters) (it : Item) : bool :=
  implb (Main.Unread f) (IsArchived it =? 0)
  && implb (Main.Starred f) (IsStarred it =? 1)
  && implb (Main.Archived f) (IsArchived it =? 1).

(** "Sorted according to that field and direction, with ties broken by
    entry ID ascending": the key of an entry under a sort field, and the
    order two entries shown one after the other must be in. *)
Definition sortKey (field : string) (it : Item) : Z :=
  if String.eqb field "updated" then UpdatedAt it else CreatedAt it.

Definition inClaimedOrder (field order : string) (a b : Item) : Prop :=
  (if String.eqb order "asc"
   then sortKey field a < sortKey field b
   else sortKey field b < sortKey field a)
  \/ (sortKey field a = sortKey field b /\ ID a < ID b).

Fixpoint sortedAsClaimed (field order : string) (l : list Item) : Prop :=
  match l with
  | a :: ((b :: _) as rest) =>
      inClaimedOrder field order a b /\ sortedAsClaimed field order rest
  | _ => True
  end.

(** The two entries of the spec's filter example. *)
Definition entry1 : Item := mkItem 1 "one" "a.example" "" 0 1 100 100.
Definition entry2 : Item := mkItem 2 "two" "b.example" "" 1 0 100 100.

Definition onlyUnread : Main.walgotTableFilters := Main.mkFilters false false true.
Definition onlyStarred : Main.walgotTableFilters := Main.mkFilters false true false.
Definition onlyArchived : Main.walgotTableFilters := Main.mkFilters true false false.
Definition noFilter : Main.walgotTableFilters := Main.mkFilters false false false.

Definition sampleModel : Main.model :=
  Main.mkModel [] [entry1; entry2] true false 0 (Main.mkTermSize 80 24)
               "list" (Main.mkOptions onlyArchived) 2.

(** "ceil(N / P)" for a positive page size. *)
Definition ceilDiv (n p : Z) : Z := (n + p - 1) / p.

(** A remote side whose second page fails: page 1 answers [entry1],
    page 2 an error, page 3 [entry2]. *)
Definition flakyPage (page : Z) : list Item * error :=
  if page =? 1 then ([entry1], None)
  else if page =? 2 then ([], Some "timeout")
  else if page =? 3 then ([entry2], None)
  else ([], None).

Definition flakyGetEntries (archive starred : Z) (sort order : string)
    (page perPage : Z) (tags : string) : list Item * error :=
  flakyPage page.

(** What one page of package main's loop contributes. *)
Definition mainItemsOf
    (GetEntries :
       Z -> Z -> string -> string -> Z -> Z -> string -> list Item * error)
    (limit i : Z) : list Item :=
  fst (GetEntries (-1) (-1) "updated" "desc" i limit "").

(** A remote side on which every page succeeds. *)
Definition goodPage (page : Z) : list Item * error :=
  if page =? 1 then ([entry1], None)
  else if page =? 2 then ([entry2], None)
  else ([], None).

(** A stand-in for gob: one byte per entry. *)
Definition sampleDecode (content : list Byte.byte) : list Item * error :=
  match content with
  | [] => ([], None)
  | Byte.x01 :: _ => ([entry1], None)
  | _ => ([], Some "gob: bad data")
  end.

Definition sampleEncode (entries : list Item) : list Byte.byte * error :=
  (map (fun _ => Byte.x01) entries, None).

Definition envOf (pages : Z -> list Item * error) (openErr : error)
  : Tui.Env :=
  Tui.mkEnv (2, None) (fun _ page _ _ => pages page) None openErr 18
            sampleDecode sampleEncode.

Definition noCache : Tui.World := Tui.mkWorld None [].

Definition cacheWith (mode : Z) (data : list Byte.byte) : Tui.World :=
  Tui.mkWorld (Some (Tui.mkCacheFile mode data)) [].

(** The effect one page request of package tui leaves, and the items
    the page contributes. *)
Definition tuiRequest (limit : Z) (sortField sortOrder : string) (i : Z)
  : Tui.Effect :=
  Tui.EGetEntries (mkRequest limit i sortField sortOrder).

Definition tuiItemsOf (env : Tui.Env) (limit : Z)
    (sortField sortOrder : string) (i : Z) : list Item :=
  fst (Tui.GetEntries env limit i sortField sortOrder).

(** The world after some more effects, the cache file untouched. *)
Definition addEffects (w : Tui.World) (es : list Tui.Effect) : Tui.World :=
  Tui.mkWorld (Tui.cacheFile w) (Tui.effects w ++ es).

(** "A sync attempt that reaches the paginated fetch": there is no
    cache file, or it passes the mode test and either cannot be read or
    decodes to no entry. *)
Definition reachesFetch (env : Tui.Env) (w : Tui.World) : Prop :=
  match Tui.cacheFile w with
  | None => True
  | Some f =>
      Tui.modeCheck (Tui.fileMode f) = false
      /\ (Tui.readFileError env <> None
          \/ (Tui.readFileError env = None
              /\ Tui.gobDecode env (Tui.fileData f) = ([], None)))
  end.

(** The mode of the file [os.OpenFile] leaves behind when it succeeds. *)
Definition opened (env : Tui.Env) (w : Tui.World) : Z :=
  match Tui.cacheFile w with
  | Some f => Tui.fileMode f
  | None => Z.ldiff 384 (Tui.umask env)
  end.

(** An effect that, when it is a page request, carries the given page
    size, sort field and sort order. *)
Definition carriesSort (limit : Z) (sortField sortOrder : string)
    (ev : Tui.Effect) : Prop :=
  match ev with
  | Tui.EGetEntries r =>
      rqPerPage r = limit /\ rqSort r = sortField /\ rqOrder r = sortOrder
  | _ => True
  end.

(** A view updater that only leaves its name behind. *)
Definition tagged (label : string) (msg : Tui.Msg) (m : Tui.model)
  : Tui.model * Tui.Cmd :=
  (m, Tui.CmdOther label).

(** A model with an open dialog above a selected entry. *)
Definition busyModel : Tui.model :=
  Tui.mkModel (Tui.mkDialog "Delete this entry?" false "delete") ""
    true false "detail"
    (Tui.mkOptions (Tui.mkFilters false false true false "")
                   (Tui.mkSorts "created" "desc"))
    [entry1] 1 1 55 (Tui.mkTermSize 80 24) false.

(** A remote side that refuses the count request. *)
Definition downEnv : Tui.Env :=
  Tui.mkEnv (0, Some "connection refused") (fun _ page _ _ => goodPage page)
            None None 18 sampleDecode sampleEncode.

(** A model fresh from a reload, nothing selected, no dialog. *)
Definition idleModel : Tui.model :=
  Tui.mkModel (Tui.mkDialog "" false "") "" true true "list"
    (Tui.mkOptions (Tui.mkFilters false false true false "")
                   (Tui.mkSorts "created" "desc"))
    [] 0 0 55 (Tui.mkTermSize 80 24) false.

(** A plain stand-in for the bubbles sub-models: the state is the
    cursor of the table, and nothing is rendered. *)
Definition sampleUi : MainUpdate.Bubbles Z unit :=
  MainUpdate.mkBubbles Z unit
    (fun n rows w => Z.max 0 (Z.min (w + n) (Z.of_nat (List.length rows) - 1)))
    (fun n rows w => Z.max 0 (w - n))
    (fun rows w => 0)
    (fun rows w => Z.max 0 (Z.of_nat (List.length rows) - 1))
    (fun rows w => if w <? 0 then [] else nth (Z.to_nat w) rows [])
    (fun rows w => w)
    (fun width height w => 0)
    (fun width height w => w)
    (fun content w => w)
    (fun w => w)
    (fun w => w)
    (fun w => w)
    (fun msg w => (w, tt))
    (fun msg w => (w, tt))
    (fun m => 2)
    (fun m => 5)
    (fun s => s)
    Itoa
    (fun html => (html, None))
    (fun s width => s)
    (fun s => s).

(** The list view over the two sample entries, unread filter on, the
    cursor on the first row; the same model with the help view open. *)
Definition loadedApp : MainUpdate.app Z :=
  MainUpdate.mkApp
    (Main.mkModel
       (Main.getTableRows (fun s => s) Itoa [entry1; entry2] onlyUnread)
       [entry1; entry2] true false 0 (Main.mkTermSize 80 24) "list"
       (Main.mkOptions onlyUnread) 2)
    0.

Definition helpApp : MainUpdate.app Z :=
  MainUpdate.mkApp (MainUpdate.withCurrentView (MainUpdate.core loadedApp) "help")
                   0.

(** An API on which every mutation succeeds, and a start-up
    configuration. *)
Definition sampleApi : TuiCommands.Api :=
  TuiCommands.mkApi
    (fun id archive starred public => ([Byte.x01], None))
    (fun url => (entry1, None))
    (fun id => None)
    (fun bytes => (entry1, None))
    (fun url => String.prefix "http" url).

Definition sampleConfig : TuiStart.WalgotConfig :=
  TuiStart.mkConfig 55 false true false false.

(** The first cell of every row: the ID column. *)
Definition idColumn (rows : list Row) : list string := map (hd "") rows.

(** ** Package main: filters and rows *)

Section RowsFacts.

Variable renderBold : string -> string.
Variable formatDate : Z -> string.

Local Notation "'rowsOf'" := (Main.getTableRows renderBold formatDate).
Local Notation "'rowOf'" := (Main.tableRow renderBold formatDate).

Lemma skipped_passes f it :
  Main.skipped f it = negb (passesFilters f it).
Proof.
  unfold Main.skipped, passesFilters.
  destruct (Main.Unread f), (Main.Starred f), (Main.Archived f),
    (IsArchived it =? 0), (IsStarred it =? 1), (IsArchived it =? 1);
    reflexivity.
Qed.

(** The accumulator of the loop only ever grows at its end. *)
Lemma rows_loop f items : forall acc,
  fold_left
    (fun r it => if Main.skipped f it then r else r ++ [rowOf it])
    items acc
  = acc ++ map rowOf (filter (passesFilters f) items).
Proof.
  induction items as [|it items IH]; intro acc; simpl.
  - now rewrite app_nil_r.
  - rewrite IH, skipped_passes.
    destruct (passesFilters f it); simpl; [|reflexivity].
    now rewrite <- app_assoc.
Qed.

Lemma rows_map_filter items f :
  rowsOf items f = map rowOf (filter (passesFilters f) items).
Proof. exact (rows_loop f items []). Qed.

Lemma idColumn_rows items f :
  idColumn (rowsOf items f)
  = map (fun it => Itoa (ID it)) (filter (passesFilters f) items).
Proof.
  rewrite rows_map_filter. unfold idColumn. rewrite map_map.
  reflexivity.
Qed.

(** C8. For every entry list and every filter setting, the rows of
    [getTableRows] are exactly the rows of the entries that pass all
    active filters (unread: archived flag 0; starred: starred flag 1;
    archived: archived flag 1), so a row is shown if and only if it is
    the row of such an entry; on the two entries of the example the
    unread filter shows id 1, the starred filter id 1, the archived
    filter id 2. *)
Theorem getTableRows_filters :
  (forall items f,
      rowsOf items f = map rowOf (filter (passesFilters f) items))
  /\ (forall items f r,
      In r (rowsOf items f) <->
      exists it, In it items /\ passesFilters f it = true /\ r = rowOf it)
  /\ idColumn (rowsOf [entry1; entry2] onlyUnread) = ["1"]
  /\ idColumn (rowsOf [entry1; entry2] onlyStarred) = ["1"]
  /\ idColumn (rowsOf [entry1; entry2] onlyArchived) = ["2"].
Proof.
  split; [exact rows_map_filter|].
  split; [|repeat split; reflexivity].
  intros items f r. rewrite rows_map_filter, in_map_iff. split.
  - intros (it & <- & Hin). apply filter_In in Hin as [Hin Hp].
    now exists it.
  - intros (it & Hin & Hp & ->). exists it. split; [reflexivity|].
    now apply filter_In.
Qed.

(** The rows keep the order of the entry slice: the rows of a
    concatenation are the rows of its parts, one after the other. *)
Lemma rows_app items1 items2 f :
  rowsOf (items1 ++ items2) f = rowsOf items1 f ++ rowsOf items2 f.
Proof. now rewrite !rows_map_filter, filter_app, map_app. Qed.

Lemma filters_after_update msg m :
  Main.Filters (Main.Options
    (Main.listViewFiltersUpdate renderBold formatDate msg m))
  = let f0 := Main.Filters (Main.Options m) in
    let f1 := if String.eqb msg "u" then Main.onU f0 else f0 in
    let f2 := if String.eqb msg "s" then Main.onS f1 else f1 in
    if String.eqb msg "a" then Main.onA f2 else f2.
Proof. reflexivity. Qed.

(** C7. From any filter state in which Unread and Archived are not both
    true, [listViewFiltersUpdate] reaches a state with the same
    property, whatever the key; the "u" key that turns Unread on leaves
    Archived false, the "a" key that turns Archived on leaves Unread
    false, and the "s" key flips Starred and changes neither Unread nor
    Archived. *)
Theorem listViewFiltersUpdate_exclusive msg m :
  let f := Main.Filters (Main.Options m) in
  let f' := Main.Filters (Main.Options
              (Main.listViewFiltersUpdate renderBold formatDate msg m)) in
  Main.Unread f && Main.Archived f = false ->
  Main.Unread f' && Main.Archived f' = false
  /\ (msg = "u" -> Main.Unread f = false ->
      Main.Unread f' = true /\ Main.Archived f' = false
      /\ Main.Starred f' = Main.Starred f)
  /\ (msg = "a" -> Main.Archived f = false ->
      Main.Archived f' = true /\ Main.Unread f' = false
      /\ Main.Starred f' = Main.Starred f)
  /\ (msg = "s" ->
      Main.Starred f' = negb (Main.Starred f)
      /\ Main.Unread f' = Main.Unread f
      /\ Main.Archived f' = Main.Archived f).
Proof.
  intros f f' Hex. subst f'. rewrite filters_after_update. fold f.
  cbv zeta. split; [|split; [|split]].
  - destruct f as [a s u]; simpl in Hex.
    destruct (String.eqb msg "u"), (String.eqb msg "s"),
      (String.eqb msg "a"), a, s, u; try discriminate Hex; reflexivity.
  - intros -> Hu. destruct f as [a s u]; simpl in *. subst u.
    now destruct a, s.
  - intros -> Ha. destruct f as [a s u]; simpl in *. subst a.
    now destruct s, u.
  - intros ->. destruct f as [a s u]; simpl. now destruct a, s, u.
Qed.

End RowsFacts.

(** C9, counterexample. Two entries with equal timestamps, ID 2 ahead of
    ID 1 in the slice: the rows come out as 2 then 1 whatever the sort
    field and direction, which is not the claimed order. *)
Lemma rows_not_sorted_counterexample :
  let tie2 := mkItem 2 "b" "x.example" "" 0 0 100 100 in
  let tie1 := mkItem 1 "a" "x.example" "" 0 0 100 100 in
  Main.getTableRows (fun s => s) Itoa [tie2; tie1] noFilter
  = map (Main.tableRow (fun s => s) Itoa) [tie2; tie1]
  /\ idColumn (Main.getTableRows (fun s => s) Itoa [tie2; tie1] noFilter)
     = ["2"; "1"]
  /\ ~ sortedAsClaimed "created" "desc" [tie2; tie1]
  /\ ~ sortedAsClaimed "created" "asc" [tie2; tie1]
  /\ ~ sortedAsClaimed "updated" "desc" [tie2; tie1]
  /\ ~ sortedAsClaimed "updated" "asc" [tie2; tie1].
Proof.
  cbv zeta. split; [reflexivity|]. split; [reflexivity|].
  repeat split; intros [[H|[_ H]] _]; vm_compute in H; discriminate H.
Qed.

Lemma listViewFiltersUpdate_exclusive_witness :
  let f' := Main.Filters (Main.Options
              (Main.listViewFiltersUpdate (fun s => s) Itoa "u" sampleModel)) in
  Main.Unread f' && Main.Archived f' = false
  /\ Main.Unread f' = true.
Proof.
  pose proof (listViewFiltersUpdate_exclusive (fun s => s) Itoa "u"
                sampleModel eq_refl) as (H & Hu & _).
  split; [exact H|]. exact (proj1 (Hu eq_refl eq_refl)).
Defined.

(** ** Package main: the two API callbacks *)

Lemma ceilDiv_bounds n p :
  0 < p -> (ceilDiv n p - 1) * p < n <= ceilDiv n p * p.
Proof.
  intro Hp. unfold ceilDiv.
  pose proof (Z.div_mod (n + p - 1) p ltac:(lia)) as Hd.
  pose proof (Z.mod_pos_bound (n + p - 1) p Hp) as Hm.
  nia.
Qed.

Lemma requiredCalls_ceil n p :
  0 < p -> 1 <= n -> Main.requiredCalls n p = ceilDiv n p.
Proof.
  intros Hp Hn. unfold Main.requiredCalls.
  pose proof (ceilDiv_bounds n p Hp) as Hc.
  destruct (Z.gtb_spec n p) as [Hgt|Hle].
  - rewrite Z.quot_div_nonneg by lia. cbv zeta.
    pose proof (Z.div_mod n p ltac:(lia)) as Hd.
    pose proof (Z.mod_pos_bound n p Hp) as Hm.
    destruct (Z.ltb_spec (n / p * p) n); nia.
  - nia.
Qed.

(** The exact comparison and the binary64 one give the same number of
    calls on every count up to 4000 with the page size of package main,
    on a few other page sizes, and just below 2^53; far above 2^53 the
    rounded quotient can fall back on [nbCalls] and the two part. *)
Lemma requiredCalls_binary64_sample :
  forallb (fun n => Main.requiredCallsBinary64 n 55 =? Main.requiredCalls n 55)
          (map Z.of_nat (seq 0 4001)) = true
  /\ forallb (fun p => forallb
         (fun n => Main.requiredCallsBinary64 n p =? Main.requiredCalls n p)
         (map Z.of_nat (seq 0 300)))
       [1; 2; 3; 7; 10; 30; 100; 255] = true
  /\ Main.requiredCallsBinary64 (2 ^ 53 - 1) 55
     = Main.requiredCalls (2 ^ 53 - 1) 55
  /\ Main.requiredCallsBinary64 (55 * 2 ^ 52 + 1) 55 = 2 ^ 52
  /\ Main.requiredCalls (55 * 2 ^ 52 + 1) 55 = 2 ^ 52 + 1.
Proof. repeat split; vm_compute; reflexivity. Qed.

Lemma requiredCalls_small n p : n <= p -> Main.requiredCalls n p = 1.
Proof.
  intro H. unfold Main.requiredCalls.
  destruct (Z.gtb_spec n p); [lia|reflexivity].
Qed.

Section MainRemoteFacts.

Variable GetEntries :
  Z -> Z -> string -> string -> Z -> Z -> string -> list Item * error.

Local Notation "'itemsOf'" := (mainItemsOf GetEntries).

(** The loop of package main never stops early. *)
Lemma main_fetchLoop_all limit pages : forall entries sent,
  Main.fetchLoop GetEntries limit pages entries sent
  = (entries ++ flat_map (itemsOf limit) pages,
     sent ++ map (fun i => mkRequest limit i "updated" "desc") pages).
Proof.
  induction pages as [|i pages IH]; intros entries sent; simpl.
  - now rewrite !app_nil_r.
  - unfold mainItemsOf at 1.
    destruct (GetEntries (-1) (-1) "updated" "desc" i limit "") as [items e].
    rewrite IH. simpl. now rewrite <- !app_assoc.
Qed.

Lemma main_requestWallabagEntries_all n :
  Main.requestWallabagEntries GetEntries n
  = (Main.wallabagoResponseEntitiesMsg
       (flat_map (itemsOf 55) (pagesUpTo (Main.requiredCalls n 55))),
     map (fun i => mkRequest 55 i "updated" "desc")
         (pagesUpTo (Main.requiredCalls n 55))).
Proof.
  unfold Main.requestWallabagEntries, Main.articleByAPICall.
  now rewrite main_fetchLoop_all.
Qed.

End MainRemoteFacts.

(** C3, counterexample. With no entry on the server, package main still
    issues one request, for page 1, where ceil(0 / 55) is 0. *)
Lemma no_entries_one_call_counterexample :
  ceilDiv 0 55 = 0
  /\ Main.requiredCalls 0 55 = 1
  /\ snd (Main.requestWallabagEntries flakyGetEntries 0)
     = [mkRequest 55 1 "updated" "desc"].
Proof. repeat split; reflexivity. Qed.

(** C2, counterexample. With 120 entries and a failing second page,
    package main requests all three pages and answers the entries of
    pages 1 and 3 in an entries message: no abort, no error message. *)
Lemma main_sync_keeps_going_counterexample :
  Main.requestWallabagEntries flakyGetEntries 120
  = (Main.wallabagoResponseEntitiesMsg [entry1; entry2],
     [mkRequest 55 1 "updated" "desc"; mkRequest 55 2 "updated" "desc";
      mkRequest 55 3 "updated" "desc"]).
Proof. reflexivity. Qed.

(** C5, counterexample. When the count request fails, package main ends
    the process with status 1. *)
Lemma main_count_failure_exits_counterexample :
  Main.requestWallabagNbEntries (0, Some "connection refused")
  = Main.Exited 1.
Proof. reflexivity. Qed.

(** ** Package tui: the synchronizer *)

Lemma addEffects_app w es1 es2 :
  addEffects (addEffects w es1) es2 = addEffects w (es1 ++ es2).
Proof. unfold addEffects. simpl. now rewrite <- app_assoc. Qed.

Lemma addEffects_nil w : addEffects w [] = w.
Proof. destruct w. unfold addEffects. simpl. now rewrite app_nil_r. Qed.

Section TuiSyncFacts.

Variable env : Tui.Env.
Variable getRequiredNbAPICalls : Z -> Z -> Z.
Variables nbArticles nbEntriesPerAPICall : Z.
Variables sortField sortOrder : string.

Local Notation "'pageError' limit i" :=
  (snd (Tui.GetEntries env limit i sortField sortOrder))
  (at level 10, limit at level 9, i at level 9).
Local Notation "'loop'" := (Tui.fetchLoop env sortField sortOrder).
Local Notation "'req' limit" := (tuiRequest limit sortField sortOrder)
  (at level 10, limit at level 9).
Local Notation "'itemsOf' limit" :=
  (tuiItemsOf env limit sortField sortOrder) (at level 10, limit at level 9).
Local Notation "'command'" :=
  (Tui.fetchCommand env getRequiredNbAPICalls nbArticles
     nbEntriesPerAPICall sortField sortOrder).
Local Notation "'sync'" :=
  (Tui.sync env getRequiredNbAPICalls nbArticles nbEntriesPerAPICall
     sortField sortOrder).

Lemma loop_step limit i rest entries w :
  loop limit (i :: rest) entries w
  = match Tui.GetEntries env limit i sortField sortOrder with
    | (_, Some e) => ((Some e, entries), addEffects w [req limit i])
    | (items, None) =>
        loop limit rest (entries ++ items) (addEffects w [req limit i])
    end.
Proof.
  simpl. unfold Tui.bind, Tui.apiGetEntries, Tui.bind, Tui.did, Tui.ret.
  destruct (Tui.GetEntries env limit i sortField sortOrder) as [items [e|]];
    reflexivity.
Qed.

(** Every page answers: the loop runs through all of them. *)
Lemma loop_all_ok limit pages : forall entries w,
  (forall i, In i pages -> pageError limit i = None) ->
  loop limit pages entries w
  = ((None, entries ++ flat_map (itemsOf limit) pages),
     addEffects w (map (req limit) pages)).
Proof.
  induction pages as [|i pages IH]; intros entries w Hok.
  - simpl. unfold Tui.ret. now rewrite app_nil_r, addEffects_nil.
  - rewrite loop_step. pose proof (Hok i (or_introl eq_refl)) as Hi.
    unfold tuiItemsOf at 1. simpl flat_map.
    destruct (Tui.GetEntries env limit i sortField sortOrder) as [items e].
    simpl in Hi. subst e. rewrite IH by (intros; apply Hok; now right).
    rewrite addEffects_app. simpl. now rewrite <- app_assoc.
Qed.

(** A page fails after some that answered: the loop stops there. *)
Lemma loop_first_failure limit ok bad rest e : forall entries w,
  (forall i, In i ok -> pageError limit i = None) ->
  pageError limit bad = Some e ->
  loop limit (ok ++ bad :: rest) entries w
  = ((Some e, entries ++ flat_map (itemsOf limit) ok),
     addEffects w (map (req limit) (ok ++ [bad]))).
Proof.
  induction ok as [|i ok IH]; intros entries w Hok Hbad.
  - simpl app. rewrite loop_step.
    destruct (Tui.GetEntries env limit bad sortField sortOrder) as [items e'].
    simpl in Hbad. subst e'. simpl. now rewrite app_nil_r.
  - simpl app. rewrite loop_step.
    pose proof (Hok i (or_introl eq_refl)) as Hi.
    unfold tuiItemsOf at 1. simpl flat_map.
    destruct (Tui.GetEntries env limit i sortField sortOrder) as [items e'].
    simpl in Hi. subst e'.
    rewrite IH by (try assumption; intros; apply Hok; now right).
    rewrite addEffects_app. simpl. now rewrite <- app_assoc.
Qed.

(** Some page of a list fails: there is a first one. *)
Lemma first_failing_page limit pages :
  (exists k, In k pages /\ pageError limit k <> None) ->
  exists ok bad rest e,
    pages = ok ++ bad :: rest
    /\ (forall i, In i ok -> pageError limit i = None)
    /\ pageError limit bad = Some e.
Proof.
  induction pages as [|i pages IH]; intros (k & Hin & Hk).
  - destruct Hin.
  - destruct (pageError limit i) as [e|] eqn:Hi.
    + exists [], i, pages, e. repeat split; [|assumption].
      intros j [].
    + destruct IH as (ok & bad & rest & e & -> & Hok & Hbad).
      { destruct Hin as [->|Hin]; [congruence|]. now exists k. }
      exists (i :: ok), bad, rest, e. repeat split; [|assumption].
      intros j [<-|Hj]; [assumption|now apply Hok].
Qed.

(** The head of [requestWallabagEntries] when the fetch is reached. *)
Lemma sync_reaches_fetch w :
  reachesFetch env w ->
  exists es,
    (es = [Tui.EStat] \/ es = [Tui.EStat; Tui.EReadFile])
    /\ sync w = command [] (addEffects w es).
Proof.
  unfold reachesFetch, Tui.sync, Tui.requestWallabagEntries, Tui.bind,
    Tui.osStat, Tui.osReadFile, Tui.bind, Tui.did, Tui.ret, addEffects.
  destruct w as [[f|] effs]; simpl.
  - intros [Hmode Hrd]. rewrite Hmode. simpl.
    destruct Hrd as [Hrd|[Hrd Hdec]].
    + destruct (Tui.readFileError env) as [e|]; [|congruence].
      exists [Tui.EStat; Tui.EReadFile]. split; [now right|].
      simpl. now rewrite <- app_assoc.
    + rewrite Hrd, Hdec. exists [Tui.EStat; Tui.EReadFile].
      split; [now right|]. simpl. now rewrite <- app_assoc.
  - intros _. exists [Tui.EStat]. split; [now left|reflexivity].
Qed.

End TuiSyncFacts.

(** ** Package tui: [Update] *)

Section DispatchFacts.

Variable updateDialogView : Tui.Msg -> Tui.model -> Tui.model * Tui.Cmd.
Variable updateHelpView : Tui.Msg -> Tui.model -> Tui.model * Tui.Cmd.
Variable updateEntryView : Tui.Msg -> Tui.model -> Tui.model * Tui.Cmd.
Variable updateListView : Tui.Msg -> Tui.model -> Tui.model * Tui.Cmd.
Variable updatedEntryInModel : Tui.model -> Item -> Tui.model.

Local Notation "'Update'" :=
  (Tui.Update updateDialogView updateHelpView updateEntryView
     updateListView updatedEntryInModel).

(** An error message with a text always ends up in the dialog updater,
    on a model that differs only by [Reloading] and the dialog text. *)
Lemma update_error_to_dialog m text err :
  text <> "" ->
  Update m (Tui.wallabagoResponseErrorMsg text err)
  = updateDialogView (Tui.wallabagoResponseErrorMsg text err)
      (Tui.withDialogMessage (Tui.withReloading m false) text).
Proof.
  intro Htext. unfold Tui.Update, Tui.globalKeys, Tui.priorityMessages,
    Tui.viewDispatch. simpl.
  destruct (String.eqb_spec text ""); [contradiction|reflexivity].
Qed.

Lemma update_error_keeps_entries m text err :
  text <> "" ->
  exists m',
    Update m (Tui.wallabagoResponseErrorMsg text err)
    = updateDialogView (Tui.wallabagoResponseErrorMsg text err) m'
    /\ Tui.Entries m' = Tui.Entries m
    /\ Tui.Reloading m' = false
    /\ Tui.Message (Tui.Dialog m') = text.
Proof.
  intro Htext. eexists. split; [now apply update_error_to_dialog|].
  repeat split.
Qed.

End DispatchFacts.

(** ** Package tui: what a synchronization attempt does *)

Lemma retrieveMessage_not_empty : Tui.retrieveMessage <> "".
Proof. discriminate. Qed.

Lemma openMessage_not_empty e : Tui.openMessage e <> "".
Proof. discriminate. Qed.

Lemma encodeMessage_not_empty e : Tui.encodeMessage e <> "".
Proof. discriminate. Qed.

(** The mode test looks at the lowest permission bit only. *)
Lemma modeCheck_bit0 mode :
  Tui.modeCheck mode = Z.testbit mode 0.
Proof.
  unfold Tui.modeCheck.
  replace (Z.land mode 1) with (Z.b2z (Z.testbit mode 0)).
  - now destruct (Z.testbit mode 0).
  - rewrite Z.bit0_mod. symmetry. apply (Z.land_ones mode 1). lia.
Qed.

Lemma owner_only_passes mode :
  Z.land mode 63 = 0 -> Tui.modeCheck mode = false.
Proof.
  intro H. rewrite modeCheck_bit0.
  pose proof (Z.land_spec mode 63 0) as Hb. rewrite H in Hb.
  rewrite Z.bits_0 in Hb. change (Z.testbit 63 0) with true in Hb.
  now rewrite andb_true_r in Hb.
Qed.

Section TuiSyncClaims.

Variable env : Tui.Env.
Variable getRequiredNbAPICalls : Z -> Z -> Z.
Variables nbArticles nbEntriesPerAPICall : Z.
Variables sortField sortOrder : string.

Local Notation "'pageError' i" :=
  (snd (Tui.GetEntries env nbEntriesPerAPICall i sortField sortOrder))
  (at level 10, i at level 9).
Local Notation "'req'" :=
  (tuiRequest nbEntriesPerAPICall sortField sortOrder).
Local Notation "'itemsOf'" :=
  (tuiItemsOf env nbEntriesPerAPICall sortField sortOrder).
Local Notation "'pages'" :=
  (pagesUpTo (getRequiredNbAPICalls nbArticles nbEntriesPerAPICall)).
Local Notation "'command'" :=
  (Tui.fetchCommand env getRequiredNbAPICalls nbArticles
     nbEntriesPerAPICall sortField sortOrder).
Local Notation "'sync'" :=
  (Tui.sync env getRequiredNbAPICalls nbArticles nbEntriesPerAPICall
     sortField sortOrder).

Ltac run_command :=
  unfold Tui.fetchCommand;
  change (0 <? Z.of_nat (List.length (@nil Item))) with false;
  cbv iota zeta; unfold Tui.bind at 1; cbv beta.

Lemma command_page_failure w ok bad rest e :
  pages = ok ++ bad :: rest ->
  (forall i, In i ok -> pageError i = None) ->
  pageError bad = Some e ->
  command [] w
  = (Tui.wallabagoResponseErrorMsg Tui.retrieveMessage (Some e),
     addEffects w (map req (ok ++ [bad]))).
Proof.
  intros Hsplit Hok Hbad. run_command.
  rewrite Hsplit, (loop_first_failure env sortField sortOrder _ ok bad rest e)
    by assumption.
  reflexivity.
Qed.

Lemma command_open_failure w e :
  (forall i, In i pages -> pageError i = None) ->
  Tui.openFileError env = Some e ->
  command [] w
  = (Tui.wallabagoResponseErrorMsg (Tui.openMessage (Some e)) (Some e),
     addEffects w (map req pages ++ [Tui.EOpenFile])).
Proof.
  intros Hok Hopen. run_command.
  rewrite (loop_all_ok env sortField sortOrder) by assumption.
  unfold Tui.bind, Tui.osOpenFile, Tui.bind, Tui.did, Tui.ret. simpl.
  rewrite Hopen. unfold addEffects. simpl. now rewrite <- app_assoc.
Qed.

Lemma command_after_open w :
  (forall i, In i pages -> pageError i = None) ->
  Tui.openFileError env = None ->
  command [] w
  = let entries := flat_map itemsOf pages in
    let (bytes, ee) := Tui.gobEncode env entries in
    (match ee with
     | Some _ => Tui.wallabagoResponseErrorMsg (Tui.encodeMessage ee) ee
     | None => Tui.wallabagoResponseEntitiesMsg entries
     end,
     Tui.mkWorld (Some (Tui.mkCacheFile (opened env w) bytes))
       (Tui.effects w ++ map req pages
          ++ [Tui.EOpenFile; Tui.EEncode entries])).
Proof.
  intros Hok Hopen. run_command.
  rewrite (loop_all_ok env sortField sortOrder) by assumption.
  unfold Tui.bind, Tui.osOpenFile, Tui.gobEncodeTo, Tui.bind, Tui.did,
    Tui.ret. simpl. rewrite Hopen. simpl.
  destruct (Tui.gobEncode env (flat_map itemsOf pages)) as [bytes [e|]];
    unfold opened; simpl; rewrite <- !app_assoc; reflexivity.
Qed.

Lemma modeCheck_ignores_group_read mode :
  Tui.modeCheck (Z.lor mode 32) = Tui.modeCheck mode
  /\ Tui.modeCheck (Z.ldiff mode 32) = Tui.modeCheck mode.
Proof.
  rewrite !modeCheck_bit0, Z.lor_spec, Z.ldiff_spec.
  change (Z.testbit 32 0) with false.
  now rewrite orb_false_r, andb_true_r.
Qed.

(** C1, as amended. Whenever the cache file exists and the mode test of
    the cache gate fires, the attempt ends with the security error message
    after the [os.Stat] call alone: the file is not read, no page is
    requested, nothing is written and the cache file stays as it was.
    The test does not look at the group-read bit: setting or clearing
    it never changes the outcome of the test. *)
Theorem rejected_cache_is_not_read w f :
  Tui.cacheFile w = Some f ->
  Tui.modeCheck (Tui.fileMode f) = true ->
  sync w = (Tui.wallabagoResponseErrorMsg Tui.securityMessage None,
            addEffects w [Tui.EStat])
  /\ Tui.cacheFile (snd (sync w)) = Tui.cacheFile w
  /\ (forall mode,
        Tui.modeCheck (Z.lor mode 32) = Tui.modeCheck mode
        /\ Tui.modeCheck (Z.ldiff mode 32) = Tui.modeCheck mode).
Proof.
  intros Hf Hmode.
  assert (Hrun : sync w
                 = (Tui.wallabagoResponseErrorMsg Tui.securityMessage None,
                    addEffects w [Tui.EStat])).
  { unfold Tui.sync, Tui.requestWallabagEntries, Tui.bind, Tui.osStat,
      Tui.bind, Tui.did, Tui.ret, addEffects.
    destruct w as [c effs]; simpl in *. subst c. simpl.
    now rewrite Hmode. }
  split; [exact Hrun|]. split; [now rewrite Hrun|].
  exact modeCheck_ignores_group_read.
Qed.

(** C10. If the cache file exists with owner-only permissions, can be
    read, and its bytes fail to decode, the attempt ends with the one
    error message about loading the cache after [os.Stat] and
    [os.ReadFile] alone: no page is requested, the file is not opened
    for writing, nothing is encoded, and the cache file stays as it
    was. *)
Theorem corrupt_cache_blocks_sync w f partial e :
  Tui.cacheFile w = Some f ->
  Z.land (Tui.fileMode f) 63 = 0 ->
  Tui.readFileError env = None ->
  Tui.gobDecode env (Tui.fileData f) = (partial, Some e) ->
  sync w = (Tui.wallabagoResponseErrorMsg Tui.loadMessage (Some e),
            addEffects w [Tui.EStat; Tui.EReadFile])
  /\ Tui.cacheFile (snd (sync w)) = Tui.cacheFile w
  /\ (forall r, ~ In (Tui.EGetEntries r) [Tui.EStat; Tui.EReadFile])
  /\ ~ In Tui.EOpenFile [Tui.EStat; Tui.EReadFile]
  /\ (forall entries, ~ In (Tui.EEncode entries) [Tui.EStat; Tui.EReadFile]).
Proof.
  intros Hf Hmode Hread Hdec.
  assert (Hrun : sync w
                 = (Tui.wallabagoResponseErrorMsg Tui.loadMessage (Some e),
                    addEffects w [Tui.EStat; Tui.EReadFile])).
  { unfold Tui.sync, Tui.requestWallabagEntries, Tui.bind, Tui.osStat,
      Tui.osReadFile, Tui.bind, Tui.did, Tui.ret, addEffects.
    destruct w as [c effs]; simpl in *. subst c. simpl.
    rewrite (owner_only_passes _ Hmode). simpl.
    rewrite Hread, Hdec. simpl. now rewrite <- app_assoc. }
  split; [exact Hrun|]. split; [now rewrite Hrun|].
  repeat split; intros; simpl; intuition discriminate.
Qed.

Lemma sync_page_failure w ok bad rest e :
  reachesFetch env w ->
  pages = ok ++ bad :: rest ->
  (forall i, In i ok -> pageError i = None) ->
  pageError bad = Some e ->
  exists es,
    (es = [Tui.EStat] \/ es = [Tui.EStat; Tui.EReadFile])
    /\ sync w
       = (Tui.wallabagoResponseErrorMsg Tui.retrieveMessage (Some e),
          addEffects w (es ++ map req (ok ++ [bad]))).
Proof.
  intros Hreach Hsplit Hok Hbad.
  destruct (sync_reaches_fetch env getRequiredNbAPICalls nbArticles
              nbEntriesPerAPICall sortField sortOrder w Hreach)
    as (es & Hes & ->).
  exists es. split; [exact Hes|].
  rewrite (command_page_failure _ ok bad rest e) by assumption.
  now rewrite addEffects_app.
Qed.

(** C2, as amended. In package tui, on every attempt that reaches the
    paginated fetch, if some page among 1..calls fails the attempt stops
    at the first failing page: the command answers the one error message
    about retrieving entries, the effects are the stat (and read) of the
    cache followed by the page requests up to the failing one, the cache
    file is neither opened nor written and stays as it was, and [Update]
    hands that message to the dialog updater on a model whose Entries
    are the ones from before.  The loop of package main has no such
    stop: it requests every page and answers an entries message with
    whatever the pages held. *)
Theorem page_failure_aborts_tui_sync w k :
  reachesFetch env w ->
  In k pages ->
  pageError k <> None ->
  (exists e ok bad rest es,
      pages = ok ++ bad :: rest
      /\ (forall i, In i ok -> pageError i = None)
      /\ pageError bad = Some e
      /\ (es = [Tui.EStat] \/ es = [Tui.EStat; Tui.EReadFile])
      /\ sync w
         = (Tui.wallabagoResponseErrorMsg Tui.retrieveMessage (Some e),
            addEffects w (es ++ map req (ok ++ [bad])))
      /\ Tui.cacheFile (snd (sync w)) = Tui.cacheFile w
      /\ (forall uD uH uE uL uEnt m, exists m',
            Tui.Update uD uH uE uL uEnt m (fst (sync w))
            = uD (fst (sync w)) m'
            /\ Tui.Entries m' = Tui.Entries m))
  /\ (forall GetEntries n,
        Main.requestWallabagEntries GetEntries n
        = (Main.wallabagoResponseEntitiesMsg
             (flat_map (mainItemsOf GetEntries 55)
                       (pagesUpTo (Main.requiredCalls n 55))),
           map (fun i => mkRequest 55 i "updated" "desc")
               (pagesUpTo (Main.requiredCalls n 55)))).
Proof.
  intros Hreach Hin Hk. split; [|exact main_requestWallabagEntries_all].
  destruct (first_failing_page env sortField sortOrder nbEntriesPerAPICall
              pages (ex_intro _ k (conj Hin Hk)))
    as (ok & bad & rest & e & Hsplit & Hok & Hbad).
  destruct (sync_page_failure w ok bad rest e Hreach Hsplit Hok Hbad)
    as (es & Hes & Hrun).
  exists e, ok, bad, rest, es. rewrite Hrun. simpl.
  repeat split; try assumption.
  intros uD uH uE uL uEnt m.
  destruct (update_error_keeps_entries uD uH uE uL uEnt m
              Tui.retrieveMessage (Some e) retrieveMessage_not_empty)
    as (m' & Hup & Hent & _).
  now exists m'.
Qed.

(** Every page answers: the requests are those for pages 1..calls, in
    that order and with the given page size and sort, between the look
    at the cache and the write to it, and the entries that reach gob
    are the pages' items in page order. *)
Lemma sync_all_pages_requested w :
  reachesFetch env w ->
  (forall i, In i pages -> pageError i = None) ->
  exists es tail,
    (es = [Tui.EStat] \/ es = [Tui.EStat; Tui.EReadFile])
    /\ (tail = [Tui.EOpenFile]
        \/ tail = [Tui.EOpenFile; Tui.EEncode (flat_map itemsOf pages)])
    /\ Tui.effects (snd (sync w))
       = Tui.effects w ++ es ++ map req pages ++ tail
    /\ (Tui.openFileError env = None ->
        snd (Tui.gobEncode env (flat_map itemsOf pages)) = None ->
        fst (sync w)
        = Tui.wallabagoResponseEntitiesMsg (flat_map itemsOf pages)).
Proof.
  intros Hreach Hok.
  destruct (sync_reaches_fetch env getRequiredNbAPICalls nbArticles
              nbEntriesPerAPICall sortField sortOrder w Hreach)
    as (es & Hes & ->).
  destruct (Tui.openFileError env) as [oe|] eqn:Hopen.
  - exists es, [Tui.EOpenFile]. rewrite (command_open_failure _ oe Hok Hopen).
    simpl. rewrite <- !app_assoc.
    repeat split; [assumption|now left|discriminate].
  - exists es, [Tui.EOpenFile; Tui.EEncode (flat_map itemsOf pages)].
    rewrite (command_after_open _ Hok Hopen). cbv zeta.
    destruct (Tui.gobEncode env (flat_map itemsOf pages)) as [bytes ee].
    simpl. rewrite <- !app_assoc.
    repeat split; [assumption|now right|].
    intros _ ->. reflexivity.
Qed.

(** C4, as amended. If every page request of an attempt that reaches
    the fetch succeeds but the cache write fails, either because the
    file cannot be opened for writing or because encoding the entries
    into it fails, the command answers an error message carrying that
    failure and nothing else: no entries message is produced, and
    [Update] hands the error to the dialog updater on a model whose
    Entries are still the old ones. *)
Theorem cache_write_failure_only_reports w e :
  reachesFetch env w ->
  (forall i, In i pages -> pageError i = None) ->
  Tui.openFileError env = Some e
  \/ (Tui.openFileError env = None
      /\ snd (Tui.gobEncode env (flat_map itemsOf pages)) = Some e) ->
  exists text,
    fst (sync w) = Tui.wallabagoResponseErrorMsg text (Some e)
    /\ (Tui.openFileError env = Some e -> text = Tui.openMessage (Some e))
    /\ (Tui.openFileError env = None -> text = Tui.encodeMessage (Some e))
    /\ (forall entries,
          fst (sync w) <> Tui.wallabagoResponseEntitiesMsg entries)
    /\ (forall uD uH uE uL uEnt m, exists m',
          Tui.Update uD uH uE uL uEnt m (fst (sync w))
          = uD (fst (sync w)) m'
          /\ Tui.Entries m' = Tui.Entries m).
Proof.
  intros Hreach Hok Hfail.
  destruct (sync_reaches_fetch env getRequiredNbAPICalls nbArticles
              nbEntriesPerAPICall sortField sortOrder w Hreach)
    as (es & _ & ->).
  assert (Hmsg : exists text,
             fst (command [] (addEffects w es))
             = Tui.wallabagoResponseErrorMsg text (Some e)
             /\ text <> ""
             /\ (Tui.openFileError env = Some e ->
                 text = Tui.openMessage (Some e))
             /\ (Tui.openFileError env = None ->
                 text = Tui.encodeMessage (Some e))).
  { destruct Hfail as [Hopen|[Hopen Henc]].
    - exists (Tui.openMessage (Some e)).
      rewrite (command_open_failure _ e Hok Hopen). simpl.
      repeat split; [apply openMessage_not_empty|].
      rewrite Hopen. discriminate.
    - exists (Tui.encodeMessage (Some e)).
      rewrite (command_after_open _ Hok Hopen). cbv zeta.
      destruct (Tui.gobEncode env (flat_map itemsOf pages)) as [bytes ee].
      simpl in Henc. subst ee. simpl.
      repeat split; [apply encodeMessage_not_empty|].
      rewrite Hopen. discriminate. }
  destruct Hmsg as (text & Hmsg & Htext & Ho & He).
  exists text. rewrite Hmsg. repeat split; try assumption.
  - discriminate.
  - intros uD uH uE uL uEnt m.
    destruct (update_error_keeps_entries uD uH uE uL uEnt m text (Some e)
                Htext) as (m' & Hup & Hent & _).
    now exists m'.
Qed.

Lemma requests_carry_sort done :
  Forall (carriesSort nbEntriesPerAPICall sortField sortOrder)
         (map req done).
Proof.
  apply Forall_forall. intros ev Hin. apply in_map_iff in Hin as (i & <- & _).
  simpl. repeat split.
Qed.

Lemma loop_adds_requests ps : forall entries w,
  exists done,
    snd (Tui.fetchLoop env sortField sortOrder nbEntriesPerAPICall ps
           entries w)
    = addEffects w (map req done).
Proof.
  induction ps as [|i ps IH]; intros entries w.
  - exists []. simpl. now rewrite addEffects_nil.
  - rewrite loop_step.
    destruct (Tui.GetEntries env nbEntriesPerAPICall i sortField sortOrder)
      as [items [e|]].
    + now exists [i].
    + destruct (IH (entries ++ items) (addEffects w [req i])) as (done & ->).
      exists (i :: done). now rewrite addEffects_app.
Qed.

Lemma command_adds entries w :
  exists es,
    Tui.effects (snd (command entries w)) = Tui.effects w ++ es
    /\ Forall (carriesSort nbEntriesPerAPICall sortField sortOrder) es.
Proof.
  unfold Tui.fetchCommand.
  destruct (0 <? Z.of_nat (List.length entries)).
  - exists []. split; [simpl; now rewrite app_nil_r|constructor].
  - cbv zeta. unfold Tui.bind at 1.
    destruct (loop_adds_requests pages entries w) as (done & Hdone).
    destruct (Tui.fetchLoop env sortField sortOrder nbEntriesPerAPICall
                pages entries w) as [[[e|] fetched] w'];
      simpl in Hdone; subst w'.
    + exists (map req done). split; [reflexivity|apply requests_carry_sort].
    + unfold Tui.bind, Tui.osOpenFile, Tui.gobEncodeTo, Tui.bind, Tui.did,
        Tui.ret. simpl.
      destruct (Tui.openFileError env) as [oe|].
      * exists (map req done ++ [Tui.EOpenFile]). simpl.
        rewrite <- app_assoc. split; [reflexivity|].
        apply Forall_app. split; [apply requests_carry_sort|].
        repeat constructor.
      * simpl. destruct (Tui.gobEncode env fetched) as [bytes [ee|]]; simpl;
          exists (map req done ++ [Tui.EOpenFile; Tui.EEncode fetched]);
          rewrite <- !app_assoc; (split; [reflexivity|]);
          (apply Forall_app; split; [apply requests_carry_sort|]);
          repeat constructor.
Qed.

(** Whatever the world, every page request of an attempt carries the
    page size, the sort field and the sort order the callback was given. *)
Lemma sync_requests_carry_sort w :
  exists es,
    Tui.effects (snd (sync w)) = Tui.effects w ++ es
    /\ Forall (carriesSort nbEntriesPerAPICall sortField sortOrder) es.
Proof.
  assert (Hcmd : forall entries pre,
             Forall (carriesSort nbEntriesPerAPICall sortField sortOrder) pre ->
             exists es,
               Tui.effects (snd (command entries (addEffects w pre)))
               = Tui.effects w ++ es
               /\ Forall (carriesSort nbEntriesPerAPICall sortField sortOrder)
                         es).
  { intros entries pre Hpre.
    destruct (command_adds entries (addEffects w pre)) as (es & -> & Hes).
    exists (pre ++ es). simpl. rewrite <- app_assoc.
    split; [reflexivity|]. apply Forall_app. now split. }
  unfold Tui.sync, Tui.requestWallabagEntries, Tui.bind, Tui.osStat,
    Tui.osReadFile, Tui.bind, Tui.did, Tui.ret.
  change (addEffects w) with
    (fun es => Tui.mkWorld (Tui.cacheFile w) (Tui.effects w ++ es)) in Hcmd.
  destruct w as [[f|] effs]; simpl in *.
  - destruct (Tui.modeCheck (Tui.fileMode f)).
    + exists [Tui.EStat]. split; [reflexivity|repeat constructor].
    + destruct (Tui.readFileError env) as [re|]; simpl.
      * rewrite <- app_assoc.
        apply (Hcmd [] [Tui.EStat; Tui.EReadFile]). repeat constructor.
      * destruct (Tui.gobDecode env (Tui.fileData f)) as [decoded [de|]];
          simpl.
        -- exists [Tui.EStat; Tui.EReadFile]. simpl.
           rewrite <- app_assoc. split; [reflexivity|repeat constructor].
        -- rewrite <- app_assoc.
           apply (Hcmd decoded [Tui.EStat; Tui.EReadFile]).
           repeat constructor.
  - apply (Hcmd [] [Tui.EStat]). repeat constructor.
Qed.

End TuiSyncClaims.

(** ** Package tui: which updater gets the message *)

Section DispatchClaims.

Variable updateDialogView : Tui.Msg -> Tui.model -> Tui.model * Tui.Cmd.
Variable updateHelpView : Tui.Msg -> Tui.model -> Tui.model * Tui.Cmd.
Variable updateEntryView : Tui.Msg -> Tui.model -> Tui.model * Tui.Cmd.
Variable updateListView : Tui.Msg -> Tui.model -> Tui.model * Tui.Cmd.
Variable updatedEntryInModel : Tui.model -> Item -> Tui.model.

Local Notation "'Update'" :=
  (Tui.Update updateDialogView updateHelpView updateEntryView
     updateListView updatedEntryInModel).

Lemma globalKeys_continue m msg :
  msg <> Tui.KeyMsg "ctrl+c" ->
  (msg = Tui.KeyMsg "?" -> Tui.Reloading m = true) ->
  Tui.globalKeys m msg = Tui.Continue m.
Proof.
  intros Hquit Hhelp. destruct msg as [key| | | | | | | | | |];
    try reflexivity.
  simpl. destruct (String.eqb_spec key "ctrl+c") as [->|_];
    [now contradiction Hquit|].
  destruct (String.eqb_spec key "?") as [->|_]; [|reflexivity].
  now rewrite (Hhelp eq_refl).
Qed.

Lemma viewDispatch_precedence m msg :
  (Tui.Message (Tui.Dialog m) <> "" ->
   Tui.viewDispatch updateDialogView updateHelpView updateEntryView
     updateListView m msg = updateDialogView msg m)
  /\ (Tui.Message (Tui.Dialog m) = "" -> Tui.CurrentView m = "help" ->
      Tui.viewDispatch updateDialogView updateHelpView updateEntryView
        updateListView m msg = updateHelpView msg m)
  /\ (Tui.Message (Tui.Dialog m) = "" -> Tui.CurrentView m <> "help" ->
      0 < Tui.SelectedID m ->
      Tui.viewDispatch updateDialogView updateHelpView updateEntryView
        updateListView m msg = updateEntryView msg m)
  /\ (Tui.Message (Tui.Dialog m) = "" -> Tui.CurrentView m <> "help" ->
      Tui.SelectedID m <= 0 ->
      Tui.viewDispatch updateDialogView updateHelpView updateEntryView
        updateListView m msg = updateListView msg m).
Proof.
  unfold Tui.viewDispatch.
  destruct (String.eqb_spec (Tui.Message (Tui.Dialog m)) "") as [Hd|Hd];
    destruct (String.eqb_spec (Tui.CurrentView m) "help") as [Hv|Hv];
    destruct (Z.gtb_spec (Tui.SelectedID m) 0) as [Hs|Hs]; simpl;
    repeat split; intros; try reflexivity; try contradiction; lia.
Qed.

(** C6, as amended. For every model and every message other than the
    ctrl+c key, the "?" key outside a reload and an entry-update
    response (those three return before any view updater is reached),
    [Update] hands the message to exactly one view updater, chosen on
    the model as it is after the message's own effect (an error message
    has set the dialog text, a row selection has set SelectedID): the
    dialog updater if the dialog text is not empty, else the help
    updater if CurrentView is "help", else the detail updater if
    SelectedID > 0, else the list updater.  So with a dialog text and a
    positive SelectedID together it is the dialog updater. *)
Theorem update_view_precedence m msg :
  msg <> Tui.KeyMsg "ctrl+c" ->
  (msg = Tui.KeyMsg "?" -> Tui.Reloading m = true) ->
  (forall it, msg <> Tui.wallabagoResponseEntityUpdateMsg it) ->
  exists m',
    Tui.Message (Tui.Dialog m')
    = match msg with
      | Tui.wallabagoResponseErrorMsg text _ => text
      | _ => Tui.Message (Tui.Dialog m)
      end
    /\ Tui.CurrentView m' = Tui.CurrentView m
    /\ Tui.SelectedID m'
       = match msg with
         | Tui.walgotSelectRowMsg v => v
         | _ => Tui.SelectedID m
         end
    /\ Tui.Entries m' = Tui.Entries m
    /\ (Tui.Message (Tui.Dialog m') <> "" ->
        Update m msg = updateDialogView msg m')
    /\ (Tui.Message (Tui.Dialog m') = "" -> Tui.CurrentView m' = "help" ->
        Update m msg = updateHelpView msg m')
    /\ (Tui.Message (Tui.Dialog m') = "" -> Tui.CurrentView m' <> "help" ->
        0 < Tui.SelectedID m' ->
        Update m msg = updateEntryView msg m')
    /\ (Tui.Message (Tui.Dialog m') = "" -> Tui.CurrentView m' <> "help" ->
        Tui.SelectedID m' <= 0 ->
        Update m msg = updateListView msg m').
Proof.
  intros Hquit Hhelp Hupd.
  assert (Hflow : exists m',
             Tui.priorityMessages updatedEntryInModel m msg = Tui.Continue m'
             /\ Tui.Message (Tui.Dialog m')
                = match msg with
                  | Tui.wallabagoResponseErrorMsg text _ => text
                  | _ => Tui.Message (Tui.Dialog m)
                  end
             /\ Tui.CurrentView m' = Tui.CurrentView m
             /\ Tui.SelectedID m'
                = match msg with
                  | Tui.walgotSelectRowMsg v => v
                  | _ => Tui.SelectedID m
                  end
             /\ Tui.Entries m' = Tui.Entries m).
  { destruct msg as [key|tag|text err|n|es|it|b|it|id|id|q];
      try (eexists; repeat split; reflexivity).
    - now contradiction (Hupd it).
    - destruct b; eexists; repeat split; reflexivity. }
  destruct Hflow as (m' & Hflow & Hd & Hv & Hs & He).
  exists m'. repeat (split; [assumption|]).
  unfold Tui.Update. rewrite (globalKeys_continue m msg Hquit Hhelp), Hflow.
  apply viewDispatch_precedence.
Qed.

(** An early return of [Update] carries the quit command only for the
    ctrl+c key. *)
Lemma quit_only_on_ctrl_c m msg r :
  Tui.globalKeys m msg = Tui.Return (r, Tui.CmdQuit)
  \/ Tui.priorityMessages updatedEntryInModel m msg
     = Tui.Return (r, Tui.CmdQuit) ->
  msg = Tui.KeyMsg "ctrl+c".
Proof.
  intros [H|H].
  - destruct msg as [key| | | | | | | | | |]; try discriminate H.
    simpl in H. destruct (String.eqb_spec key "ctrl+c") as [->|_];
      [reflexivity|].
    destruct (String.eqb key "?" && negb (Tui.Reloading m));
      discriminate H.
  - destruct msg as [| | | | | |b| | | |]; try discriminate H.
    destruct b; discriminate H.
Qed.

Lemma countMessage_not_empty : Tui.countMessage <> "".
Proof. discriminate. Qed.

(** C5, as amended. In package tui a failing count request makes
    [requestWallabagNbEntries] answer an error message instead of
    leaving the process; [Update] answers that message by
    Reloading = false and the dialog text, and hands it to the dialog
    updater; an early return of [Update] carries the quit command only
    for the ctrl+c key.  In package main the same failure ends the
    process with status 1. *)
Theorem count_failure_outcomes env n e :
  Tui.GetNbTotalEntries env = (n, Some e) ->
  Tui.requestWallabagNbEntries env
  = Tui.wallabagoResponseErrorMsg Tui.countMessage (Some e)
  /\ (forall m,
        Update m (Tui.requestWallabagNbEntries env)
        = updateDialogView (Tui.requestWallabagNbEntries env)
            (Tui.withDialogMessage (Tui.withReloading m false)
               Tui.countMessage))
  /\ (forall m msg r,
        Tui.globalKeys m msg = Tui.Return (r, Tui.CmdQuit)
        \/ Tui.priorityMessages updatedEntryInModel m msg
           = Tui.Return (r, Tui.CmdQuit) ->
        msg = Tui.KeyMsg "ctrl+c")
  /\ Main.requestWallabagNbEntries (n, Some e) = Main.Exited 1.
Proof.
  intro Hfail.
  assert (Hmsg : Tui.requestWallabagNbEntries env
                 = Tui.wallabagoResponseErrorMsg Tui.countMessage (Some e)).
  { unfold Tui.requestWallabagNbEntries. now rewrite Hfail. }
  rewrite Hmsg. split; [reflexivity|]. split.
  - intro m.
    exact (update_error_to_dialog updateDialogView updateHelpView
             updateEntryView updateListView updatedEntryInModel m
             Tui.countMessage (Some e) countMessage_not_empty).
  - split; [exact quit_only_on_ctrl_c|reflexivity].
Qed.

End DispatchClaims.

(** C6, counterexample. An open dialog above a selected entry, and the
    ctrl+c key: [Update] answers the quit command on the untouched model
    and no view updater has run. *)
Lemma ctrl_c_skips_updaters_counterexample :
  Tui.Message (Tui.Dialog busyModel) <> ""
  /\ 0 < Tui.SelectedID busyModel
  /\ Tui.Update (tagged "dialog") (tagged "help") (tagged "detail")
       (tagged "list") (fun m _ => m) busyModel (Tui.KeyMsg "ctrl+c")
     = (busyModel, Tui.CmdQuit)
  /\ Tui.Update (tagged "dialog") (tagged "help") (tagged "detail")
       (tagged "list") (fun m _ => m) busyModel (Tui.KeyMsg "ctrl+c")
     <> tagged "dialog" (Tui.KeyMsg "ctrl+c") busyModel.
Proof.
  split; [discriminate|]. split; [reflexivity|].
  split; [reflexivity|discriminate].
Qed.

(** ** Pagination and ordering, both packages *)

Lemma pagesUpTo_numbered c :
  List.length (pagesUpTo c) = Z.to_nat c
  /\ (forall j, (j < Z.to_nat c)%nat ->
        nth j (pagesUpTo c) 0 = Z.of_nat j + 1).
Proof.
  unfold pagesUpTo. split.
  - now rewrite length_map, length_seq.
  - intros j Hj. change 0 with (Z.of_nat 0).
    rewrite map_nth, seq_nth by assumption. lia.
Qed.

(** C3, as amended. In package main the page size is 55 and, for every
    count N with 1 <= N < 2^53, the callback issues exactly ceil(N / 55)
    requests, for pages 1..calls in that order, and answers the pages'
    items concatenated in that order; the computation of the number of
    calls gives ceil(N / P) for every page size P > 0 on those counts,
    3 for N=120, P=55 and 1 for N=55, P=55; for a count of 0 or less one
    request, for page 1, is still issued.  In package tui an attempt
    that reaches the fetch and on which every page answers issues the
    requests for pages 1..calls in that order with the given page size
    and sort, calls being what the package's helper makes of N and P,
    and a successful attempt answers the items in page order. *)
Theorem page_requests_follow_count :
  (forall GetEntries n, 1 <= n < 2 ^ 53 ->
      Main.requestWallabagEntries GetEntries n
      = (Main.wallabagoResponseEntitiesMsg
           (flat_map (mainItemsOf GetEntries 55) (pagesUpTo (ceilDiv n 55))),
         map (fun i => mkRequest 55 i "updated" "desc")
             (pagesUpTo (ceilDiv n 55))))
  /\ (forall n p, 0 < p -> 1 <= n < 2 ^ 53 ->
        Main.requiredCalls n p = ceilDiv n p
        /\ (ceilDiv n p - 1) * p < n <= ceilDiv n p * p)
  /\ Main.requiredCalls 120 55 = 3
  /\ Main.requiredCalls 55 55 = 1
  /\ (forall GetEntries n, n <= 0 ->
        snd (Main.requestWallabagEntries GetEntries n)
        = [mkRequest 55 1 "updated" "desc"])
  /\ (forall c,
        List.length (pagesUpTo c) = Z.to_nat c
        /\ (forall j, (j < Z.to_nat c)%nat ->
              nth j (pagesUpTo c) 0 = Z.of_nat j + 1))
  /\ (forall env helper n p sortField sortOrder w,
        reachesFetch env w ->
        (forall i, In i (pagesUpTo (helper n p)) ->
                   snd (Tui.GetEntries env p i sortField sortOrder) = None) ->
        exists es tail,
          (es = [Tui.EStat] \/ es = [Tui.EStat; Tui.EReadFile])
          /\ (tail = [Tui.EOpenFile]
              \/ tail = [Tui.EOpenFile;
                         Tui.EEncode
                           (flat_map (tuiItemsOf env p sortField sortOrder)
                                     (pagesUpTo (helper n p)))])
          /\ Tui.effects (snd (Tui.sync env helper n p sortField sortOrder w))
             = Tui.effects w ++ es
               ++ map (tuiRequest p sortField sortOrder)
                      (pagesUpTo (helper n p))
               ++ tail
          /\ (Tui.openFileError env = None ->
              snd (Tui.gobEncode env
                     (flat_map (tuiItemsOf env p sortField sortOrder)
                               (pagesUpTo (helper n p)))) = None ->
              fst (Tui.sync env helper n p sortField sortOrder w)
              = Tui.wallabagoResponseEntitiesMsg
                  (flat_map (tuiItemsOf env p sortField sortOrder)
                            (pagesUpTo (helper n p))))).
Proof.
  split.
  { intros GetEntries n Hn. rewrite main_requestWallabagEntries_all.
    now rewrite requiredCalls_ceil by lia. }
  split.
  { intros n p Hp Hn. split; [apply requiredCalls_ceil; lia|].
    now apply ceilDiv_bounds. }
  split; [reflexivity|]. split; [reflexivity|]. split.
  { intros GetEntries n Hn. rewrite main_requestWallabagEntries_all.
    now rewrite requiredCalls_small by lia. }
  split; [exact pagesUpTo_numbered|].
  intros env helper n p sortField sortOrder w.
  apply sync_all_pages_requested.
Qed.

(** C9, as amended. The rows keep the order of the entry slice:
    [getTableRows] only leaves out the entries the filters reject, so
    the rows of a concatenation are the rows of its parts one after the
    other and the ID column lists the IDs of the passing entries in
    slice order; no sort and no tie-break on the ID is applied to them.
    The sort field and order are only handed on to the remote API:
    every page request of a tui attempt carries the field and order the
    callback was given, and every page request of package main asks for
    "updated", "desc". *)
Theorem rows_keep_slice_order_sort_is_remote :
  (forall renderBold formatDate items1 items2 f,
      Main.getTableRows renderBold formatDate (items1 ++ items2) f
      = Main.getTableRows renderBold formatDate items1 f
        ++ Main.getTableRows renderBold formatDate items2 f)
  /\ (forall renderBold formatDate items f,
        idColumn (Main.getTableRows renderBold formatDate items f)
        = map (fun it => Itoa (ID it)) (filter (passesFilters f) items))
  /\ (forall env helper n p sortField sortOrder w,
        exists es,
          Tui.effects (snd (Tui.sync env helper n p sortField sortOrder w))
          = Tui.effects w ++ es
          /\ Forall (carriesSort p sortField sortOrder) es)
  /\ (forall GetEntries n r,
        In r (snd (Main.requestWallabagEntries GetEntries n)) ->
        rqSort r = "updated" /\ rqOrder r = "desc").
Proof.
  split; [exact rows_app|]. split; [exact idColumn_rows|].
  split; [exact sync_requests_carry_sort|].
  intros GetEntries n r. rewrite main_requestWallabagEntries_all. simpl.
  intro Hin. apply in_map_iff in Hin as (i & <- & _). now split.
Qed.

(** ** The claims on concrete runs *)

(** C1, counterexample. A cache file that the group may read (mode
    0640) and that decodes to one entry: the file is read and its entry
    answers the attempt; no security error is produced. *)
Lemma group_readable_cache_is_read_counterexample :
  Z.testbit 416 5 = true
  /\ Tui.sync (envOf goodPage None) Main.requiredCalls 2 55 "created" "desc"
       (cacheWith 416 [Byte.x01])
     = (Tui.wallabagoResponseEntitiesMsg [entry1],
        addEffects (cacheWith 416 [Byte.x01]) [Tui.EStat; Tui.EReadFile])
  /\ fst (Tui.sync (envOf goodPage None) Main.requiredCalls 2 55 "created"
            "desc" (cacheWith 416 [Byte.x01]))
     <> Tui.wallabagoResponseErrorMsg Tui.securityMessage None.
Proof. split; [reflexivity|]. split; [reflexivity|discriminate]. Qed.

(** The same run on a file every user may read (mode 0644): the mode
    test looks at bit 0, which is clear, and the cache is read. *)
Lemma world_readable_cache_is_read :
  Z.testbit 420 2 = true
  /\ Tui.modeCheck 420 = false
  /\ Tui.sync (envOf goodPage None) Main.requiredCalls 2 55 "created" "desc"
       (cacheWith 420 [Byte.x01])
     = (Tui.wallabagoResponseEntitiesMsg [entry1],
        addEffects (cacheWith 420 [Byte.x01]) [Tui.EStat; Tui.EReadFile]).
Proof. repeat split; reflexivity. Qed.

Lemma rejected_cache_is_not_read_witness :
  Tui.sync (envOf goodPage None) Main.requiredCalls 2 55 "created" "desc"
    (cacheWith 511 [Byte.x01])
  = (Tui.wallabagoResponseErrorMsg Tui.securityMessage None,
     addEffects (cacheWith 511 [Byte.x01]) [Tui.EStat]).
Proof.
  exact (proj1 (rejected_cache_is_not_read (envOf goodPage None)
                  Main.requiredCalls 2 55 "created" "desc"
                  (cacheWith 511 [Byte.x01])
                  (Tui.mkCacheFile 511 [Byte.x01]) eq_refl eq_refl)).
Defined.

Lemma corrupt_cache_blocks_sync_witness :
  Tui.sync (envOf goodPage None) Main.requiredCalls 2 55 "created" "desc"
    (cacheWith 384 [Byte.x02])
  = (Tui.wallabagoResponseErrorMsg Tui.loadMessage (Some "gob: bad data"),
     addEffects (cacheWith 384 [Byte.x02]) [Tui.EStat; Tui.EReadFile]).
Proof.
  exact (proj1 (corrupt_cache_blocks_sync (envOf goodPage None)
                  Main.requiredCalls 2 55 "created" "desc"
                  (cacheWith 384 [Byte.x02])
                  (Tui.mkCacheFile 384 [Byte.x02]) [] "gob: bad data"
                  eq_refl eq_refl eq_refl eq_refl)).
Defined.

Lemma page_failure_aborts_tui_sync_witness :
  exists e ok bad rest es,
    pagesUpTo (Main.requiredCalls 120 55) = ok ++ bad :: rest
    /\ Tui.sync (envOf flakyPage None) Main.requiredCalls 120 55 "created"
         "desc" noCache
       = (Tui.wallabagoResponseErrorMsg Tui.retrieveMessage (Some e),
          addEffects noCache
            (es ++ map (tuiRequest 55 "created" "desc") (ok ++ [bad])))
    /\ Tui.cacheFile
         (snd (Tui.sync (envOf flakyPage None) Main.requiredCalls 120 55
                 "created" "desc" noCache))
       = Tui.cacheFile noCache.
Proof.
  destruct (proj1 (page_failure_aborts_tui_sync (envOf flakyPage None)
                     Main.requiredCalls 120 55 "created" "desc" noCache 2
                     I (or_intror (or_introl eq_refl))
                     ltac:(discriminate)))
    as (e & ok & bad & rest & es & Hsplit & _ & _ & _ & Hrun & Hcache & _).
  exists e, ok, bad, rest, es. repeat split; assumption.
Defined.

Lemma cache_write_failure_only_reports_witness :
  exists text,
    fst (Tui.sync (envOf goodPage (Some "permission denied"))
           Main.requiredCalls 2 55 "created" "desc" noCache)
    = Tui.wallabagoResponseErrorMsg text (Some "permission denied")
    /\ text = Tui.openMessage (Some "permission denied").
Proof.
  destruct (cache_write_failure_only_reports
              (envOf goodPage (Some "permission denied"))
              Main.requiredCalls 2 55 "created" "desc" noCache
              "permission denied" I
              ltac:(intros i [<-|[]]; reflexivity)
              (or_introl eq_refl))
    as (text & Hmsg & Hopen & _).
  exists text. split; [exact Hmsg|exact (Hopen eq_refl)].
Defined.

(** C4, counterexample. No cache, one page that answers [entry1], and a
    cache file that cannot be opened for writing: the command answers
    the error message alone, the fetched entry is in no entries message,
    and after [Update] the model still has no entry. *)
Lemma cache_write_failure_drops_entries_counterexample :
  Tui.sync (envOf goodPage (Some "permission denied")) Main.requiredCalls
    2 55 "created" "desc" noCache
  = (Tui.wallabagoResponseErrorMsg
       (Tui.openMessage (Some "permission denied"))
       (Some "permission denied"),
     addEffects noCache
       [Tui.EStat; tuiRequest 55 "created" "desc" 1; Tui.EOpenFile])
  /\ tuiItemsOf (envOf goodPage (Some "permission denied")) 55 "created"
       "desc" 1 = [entry1]
  /\ fst (Tui.sync (envOf goodPage (Some "permission denied"))
            Main.requiredCalls 2 55 "created" "desc" noCache)
     <> Tui.wallabagoResponseEntitiesMsg [entry1]
  /\ Tui.Entries
       (fst (Tui.Update (tagged "dialog") (tagged "help") (tagged "detail")
               (tagged "list") (fun m _ => m) idleModel
               (fst (Tui.sync (envOf goodPage (Some "permission denied"))
                       Main.requiredCalls 2 55 "created" "desc" noCache))))
     = [].
Proof.
  split; [reflexivity|]. split; [reflexivity|].
  split; [discriminate|reflexivity].
Qed.

Lemma count_failure_outcomes_witness :
  Tui.requestWallabagNbEntries downEnv
  = Tui.wallabagoResponseErrorMsg Tui.countMessage
      (Some "connection refused")
  /\ Main.requestWallabagNbEntries (0, Some "connection refused")
     = Main.Exited 1.
Proof.
  destruct (count_failure_outcomes (tagged "dialog") (tagged "help")
              (tagged "detail") (tagged "list") (fun m _ => m) downEnv 0
              "connection refused" eq_refl)
    as (Htui & _ & _ & Hmain).
  split; assumption.
Defined.

Lemma update_view_precedence_witness :
  snd (Tui.Update (tagged "dialog") (tagged "help") (tagged "detail")
         (tagged "list") (fun m _ => m) busyModel (Tui.KeyMsg "j"))
  = Tui.CmdOther "dialog".
Proof.
  destruct (update_view_precedence (tagged "dialog") (tagged "help")
              (tagged "detail") (tagged "list") (fun m _ => m) busyModel
              (Tui.KeyMsg "j") ltac:(discriminate) ltac:(discriminate)
              ltac:(discriminate))
    as (m' & Hd & _ & _ & _ & Hdialog & _).
  rewrite Hdialog; [reflexivity|]. rewrite Hd. discriminate.
Defined.

Lemma page_requests_follow_count_witness :
  snd (Main.requestWallabagEntries flakyGetEntries 120)
  = map (fun i => mkRequest 55 i "updated" "desc") (pagesUpTo (ceilDiv 120 55))
  /\ ceilDiv 120 55 = 3.
Proof.
  split; [|reflexivity].
  rewrite (proj1 page_requests_follow_count flakyGetEntries 120
             ltac:(split; [discriminate|reflexivity])).
  reflexivity.
Defined.

Lemma getTableRows_filters_witness :
  In (Main.tableRow (fun s => s) Itoa entry1)
     (Main.getTableRows (fun s => s) Itoa [entry1; entry2] onlyUnread).
Proof.
  apply (proj1 (proj2 (getTableRows_filters (fun s => s) Itoa))).
  exists entry1. repeat split. now left.
Defined.

Lemma rows_keep_slice_order_sort_is_remote_witness :
  rqSort (mkRequest 55 1 "updated" "desc") = "updated"
  /\ rqOrder (mkRequest 55 1 "updated" "desc") = "desc".
Proof.
  apply (proj2 (proj2 (proj2 rows_keep_slice_order_sort_is_remote))
           flakyGetEntries 0).
  now left.
Defined.

(** ** Package main: the helpers of the views *)

Ltac digit_step :=
  cbn [NilEmpty.string_of_uint atoiLoop Pos.of_uint_acc Pos.of_uint];
  match goal with
  | |- context [digitValue ?c] =>
      let v := eval vm_compute in (digitValue c) in
      change (digitValue c) with v
  end; cbv iota beta.

Lemma atoiLoop_digits_pos d : forall a,
  atoiLoop (NilEmpty.string_of_uint d) (Zpos a)
  = Some (Zpos (Pos.of_uint_acc d a)).
Proof.
  induction d; intro a; [reflexivity|..];
    digit_step; rewrite <- IHd; f_equal; lia.
Qed.

Lemma atoiLoop_digits d :
  atoiLoop (NilEmpty.string_of_uint d) 0 = Some (Z.of_N (Pos.of_uint d)).
Proof.
  induction d; [reflexivity|..]; digit_step;
    [exact IHd|..]; apply atoiLoop_digits_pos.
Qed.

Lemma atoiLoop_to_uint p :
  atoiLoop (NilEmpty.string_of_uint (Pos.to_uint p)) 0 = Some (Zpos p).
Proof. now rewrite atoiLoop_digits, DecimalPos.Unsigned.of_to. Qed.

Lemma atoi_of_itoa z : Atoi (Itoa z) = (z, None).
Proof.
  destruct z as [|p|p]; [reflexivity| |]; unfold Itoa;
    cbn [Z.to_int];
    pose proof (DecimalPos.Unsigned.to_uint_nonnil p) as Hnil;
    pose proof (atoiLoop_to_uint p) as Hloop;
    destruct (Pos.to_uint p) eqn:Hd; try contradiction;
    cbn [NilZero.string_of_int NilZero.string_of_uint
         NilEmpty.string_of_uint] in *;
    unfold Atoi; repeat (simpl (Ascii.eqb _ _); cbv iota);
    simpl orb; cbv iota; now rewrite Hloop.
Qed.

(** [strconv.Atoi] reads back what [strconv.Itoa] wrote, and so two
    integers with the same text are equal. *)
Lemma Atoi_Itoa_round_trip :
  (forall z, Atoi (Itoa z) = (z, None))
  /\ (forall x y, Itoa x = Itoa y -> x = y).
Proof.
  split; [exact atoi_of_itoa|].
  intros x y H. pose proof (atoi_of_itoa x) as Hx.
  rewrite H, atoi_of_itoa in Hx. congruence.
Qed.

Lemma searchFrom_range entries id : forall i,
  MainViews.searchFrom i entries id = -1
  \/ i <= MainViews.searchFrom i entries id
       < i + Z.of_nat (List.length entries).
Proof.
  induction entries as [|e rest IH]; intro i; simpl.
  - now left.
  - destruct (ID e =? id); [right; lia|].
    destruct (IH (i + 1)) as [H|H]; [now left|right; lia].
Qed.

Lemma searchFrom_missing entries id : forall i,
  0 <= i ->
  (MainViews.searchFrom i entries id = -1
   <-> forall e, In e entries -> ID e <> id).
Proof.
  induction entries as [|e rest IH]; intros i Hi; simpl.
  - split; [intros _ x []|reflexivity].
  - destruct (Z.eqb_spec (ID e) id) as [Heq|Hne].
    + split; [lia|]. intro H. now contradiction (H e (or_introl eq_refl)).
    + rewrite (IH (i + 1)) by lia. split.
      * intros H x [<-|Hin]; [assumption|now apply H].
      * intros H x Hin. apply H. now right.
Qed.

Lemma searchFrom_found entries id : forall i,
  0 <= i ->
  MainViews.searchFrom i entries id <> -1 ->
  exists before e after,
    entries = before ++ e :: after
    /\ ID e = id
    /\ (forall x, In x before -> ID x <> id)
    /\ MainViews.searchFrom i entries id = i + Z.of_nat (List.length before).
Proof.
  induction entries as [|e rest IH]; intros i Hi Hfound; simpl in *.
  - contradiction.
  - destruct (Z.eqb_spec (ID e) id) as [Heq|Hne].
    + exists [], e, rest. repeat split; [assumption|intros x []|simpl; lia].
    + destruct (IH (i + 1) ltac:(lia) Hfound)
        as (before & x & after & -> & Hid & Hbefore & Hidx).
      exists (e :: before), x, after. repeat split; try assumption.
      * intros y [<-|Hin]; [assumption|now apply Hbefore].
      * rewrite Hidx. simpl List.length. lia.
Qed.

Lemma searchFrom_first before e after id :
  ID e = id ->
  (forall x, In x before -> ID x <> id) ->
  forall i,
    MainViews.searchFrom i (before ++ e :: after) id
    = i + Z.of_nat (List.length before).
Proof.
  intros Hid. induction before as [|x before IH]; intros Hbefore i; simpl.
  - destruct (Z.eqb_spec (ID e) id); [lia|contradiction].
  - destruct (Z.eqb_spec (ID x) id) as [Hx|_].
    + now contradiction (Hbefore x (or_introl eq_refl)).
    + rewrite IH by (intros; apply Hbefore; now right). lia.
Qed.

(** X1. [getSelectedEntryIndex] answers -1 exactly when no entry of the
    slice has the ID; the empty slice always gives -1. *)
Theorem getSelectedEntryIndex_missing entries id :
  (MainViews.getSelectedEntryIndex entries id = -1
   <-> forall e, In e entries -> ID e <> id)
  /\ MainViews.getSelectedEntryIndex [] id = -1.
Proof.
  split; [|reflexivity].
  unfold MainViews.getSelectedEntryIndex. apply searchFrom_missing. lia.
Qed.

Lemma atIndex_app before e after :
  MainViews.atIndex (before ++ e :: after) (Z.of_nat (List.length before))
  = Some e.
Proof.
  unfold MainViews.atIndex.
  destruct (Z.ltb_spec (Z.of_nat (List.length before)) 0); [lia|].
  rewrite Nat2Z.id, nth_error_app2, Nat.sub_diag by apply Nat.le_refl.
  reflexivity.
Qed.

Lemma index_found entries id :
  MainViews.getSelectedEntryIndex entries id <> -1 ->
  exists before e after,
    entries = before ++ e :: after
    /\ ID e = id
    /\ (forall x, In x before -> ID x <> id)
    /\ MainViews.getSelectedEntryIndex entries id
       = Z.of_nat (List.length before)
    /\ 0 <= MainViews.getSelectedEntryIndex entries id
         < Z.of_nat (List.length entries)
    /\ MainViews.atIndex entries
         (MainViews.getSelectedEntryIndex entries id) = Some e.
Proof.
  intro Hfound. unfold MainViews.getSelectedEntryIndex in *.
  destruct (searchFrom_found entries id 0 ltac:(lia) Hfound)
    as (before & e & after & -> & Hid & Hbefore & Hidx).
  exists before, e, after. rewrite Hidx. simpl.
  repeat split; try assumption; try lia.
  - rewrite length_app. simpl. lia.
  - apply atIndex_app.
Qed.

(** X2. When [getSelectedEntryIndex] answers something else than -1, the
    answer is an index inside the slice, the entry there has the ID, and
    no entry before it has: the first match is the one found. *)
Theorem getSelectedEntryIndex_first_match entries id :
  MainViews.getSelectedEntryIndex entries id <> -1 ->
  exists before e after,
    entries = before ++ e :: after
    /\ ID e = id
    /\ (forall x, In x before -> ID x <> id)
    /\ MainViews.getSelectedEntryIndex entries id
       = Z.of_nat (List.length before)
    /\ 0 <= MainViews.getSelectedEntryIndex entries id
         < Z.of_nat (List.length entries)
    /\ MainViews.atIndex entries
         (MainViews.getSelectedEntryIndex entries id) = Some e.
Proof. exact (index_found entries id). Qed.

Section DetailFacts.

Variable FromString : string -> string * error.
Variable wordwrapString : string -> Z -> string.
Variable renderTitle : string -> string.

Local Notation "'detail'" :=
  (MainViews.getDetailViewportContent FromString wordwrapString renderTitle).

Lemma detail_total selectedID entries :
  exists text, detail selectedID entries = Some text.
Proof.
  unfold MainViews.getDetailViewportContent. cbv zeta.
  destruct (Z.eq_dec (MainViews.getSelectedEntryIndex entries selectedID) (-1))
    as [Hmiss|Hfound].
  - rewrite Hmiss. simpl. eexists; reflexivity.
  - destruct (index_found entries selectedID Hfound)
      as (before & e & after & -> & Hid & _ & _ & [Hlo _] & Hat).
    destruct (Z.geb_spec
                (MainViews.getSelectedEntryIndex (before ++ e :: after)
                   selectedID) 0); [|lia].
    unfold MainViews.getSelectedEntryContent. rewrite Hat.
    destruct (FromString (Content e)) as [content [err|]];
      eexists; reflexivity.
Qed.

(** X3. [getDetailViewportContent] never indexes outside the slice: it
    answers a text for every ID and every slice.  For an ID no entry
    has (a deleted or never loaded entry, the empty slice) the text is
    the two "loading" placeholders. *)
Theorem detail_content_of_missing_entry selectedID entries :
  (exists text, detail selectedID entries = Some text)
  /\ ((forall e, In e entries -> ID e <> selectedID) ->
      detail selectedID entries
      = Some (renderTitle "Title loading…" ++ MainViews.twoNewlines
                ++ "Content loading…")%string).
Proof.
  split; [apply detail_total|]. intro Hnone.
  unfold MainViews.getDetailViewportContent,
    MainViews.getSelectedEntryIndex. cbv zeta.
  rewrite (proj2 (searchFrom_missing entries selectedID 0 ltac:(lia)) Hnone).
  reflexivity.
Qed.

(** X4. For an ID some entry has, [getDetailViewportContent] shows the
    first entry of the slice with that ID: its rendered title, a blank
    line, and its content converted and wrapped at 72 columns, or the
    text "Error retrieving article content" when the conversion
    fails. *)
Theorem detail_content_of_first_match selectedID before e after :
  ID e = selectedID ->
  (forall x, In x before -> ID x <> selectedID) ->
  detail selectedID (before ++ e :: after)
  = Some (renderTitle (Title e) ++ MainViews.twoNewlines
            ++ match FromString (Content e) with
               | (_, Some _) => "Error retrieving article content"
               | (content, None) => wordwrapString content 72
               end)%string.
Proof.
  intros Hid Hbefore.
  assert (Hidx : MainViews.getSelectedEntryIndex (before ++ e :: after)
                   selectedID = Z.of_nat (List.length before)).
  { unfold MainViews.getSelectedEntryIndex.
    now rewrite (searchFrom_first before e after selectedID Hid Hbefore). }
  unfold MainViews.getDetailViewportContent,
    MainViews.getSelectedEntryContent. cbv zeta.
  rewrite Hidx, atIndex_app.
  destruct (Z.geb_spec (Z.of_nat (List.length before)) 0); [|lia].
  destruct (FromString (Content e)) as [content [err|]]; reflexivity.
Qed.

End DetailFacts.

(** X5. The columns of the table share out 20 equal parts of the width:
    for a width of 0 or more (and below 2^53, where the conversion to
    [float64] is exact) the six widths add up to 20 times the twentieth
    of the width rounded down, which is at most the width and more than
    the width less 20; below 20 every column has width 0. *)
Theorem table_columns_fit maxWidth :
  0 <= maxWidth < 2 ^ 53 ->
  let widths := map table.Width (MainViews.createViewTableColumns maxWidth) in
  fold_right Z.add 0 widths = 20 * (maxWidth / 20)
  /\ maxWidth - 20 < fold_right Z.add 0 widths <= maxWidth
  /\ (maxWidth < 20 -> widths = [0; 0; 0; 0; 0; 0]).
Proof.
  intros [Hw _]. cbv zeta. unfold MainViews.createViewTableColumns.
  cbn [map table.Width fold_right]. rewrite Z.quot_div_nonneg by lia.
  pose proof (Z.div_mod maxWidth 20 ltac:(lia)) as Hd.
  pose proof (Z.mod_pos_bound maxWidth 20 ltac:(lia)) as Hm.
  split; [lia|]. split; [lia|].
  intro Hsmall. rewrite Z.div_small by lia. reflexivity.
Qed.

Section MoreRowsFacts.

Variable renderBold : string -> string.
Variable formatDate : Z -> string.

Local Notation "'rowsOf'" := (Main.getTableRows renderBold formatDate).

(** X6. [getTableRows] never shows more rows than there are entries;
    with no filter active it shows one row per entry, and with the
    unread and the archived filter both active it shows none, whatever
    the entries. *)
Theorem rows_count items f :
  (List.length (Main.getTableRows renderBold formatDate items f)
   <= List.length items)%nat
  /\ (Main.Unread f = false -> Main.Starred f = false ->
      Main.Archived f = false ->
      List.length (Main.getTableRows renderBold formatDate items f)
      = List.length items)
  /\ (Main.Unread f = true -> Main.Archived f = true ->
      Main.getTableRows renderBold formatDate items f = []).
Proof.
  rewrite rows_map_filter, length_map. split; [apply filter_length_le|].
  split.
  - intros Hu Hs Ha. f_equal.
    induction items as [|it items IH]; [reflexivity|]. simpl.
    unfold passesFilters at 1. rewrite Hu, Hs, Ha. simpl. now rewrite IH.
  - intros Hu Ha.
    replace (filter (passesFilters f) items) with (@nil Item);
      [reflexivity|].
    induction items as [|it items IH]; [reflexivity|]. simpl.
    unfold passesFilters at 1. rewrite Hu, Ha. simpl.
    destruct (Z.eqb_spec (IsArchived it) 0) as [H0|H0];
      destruct (Z.eqb_spec (IsArchived it) 1) as [H1|H1];
      simpl; try rewrite andb_false_r; try assumption; lia.
Qed.

(** X7. Every row of [getTableRows] has six cells and its first cell
    parses back, with [strconv.Atoi], to the ID of an entry of the slice
    that passes the filters. *)
Theorem row_id_cell_parses_back items f r :
  In r (rowsOf items f) ->
  List.length r = 6%nat
  /\ exists it, In it items /\ passesFilters f it = true
                /\ fst (Atoi (hd "" r)) = ID it.
Proof.
  rewrite rows_map_filter, in_map_iff. intros (it & <- & Hin).
  apply filter_In in Hin as [Hin Hp]. split; [reflexivity|].
  exists it. repeat split; try assumption.
  simpl. now rewrite atoi_of_itoa.
Qed.

End MoreRowsFacts.

(** ** Package main: the event loop *)

Section LoopFacts.

Variables W C : Type.
Variable ui : MainUpdate.Bubbles W C.

Local Notation "'Update'" := (MainUpdate.Update W C ui).
Local Notation "'run'" := (MainUpdate.run W C ui).
Local Notation "'key' k" :=
  (MainUpdate.Program (Main.KeyMsg k)) (at level 10, k at level 9).

(** Past the two global keys, [Update] stores a row selection and
    routes on the view. *)
Lemma Update_routes msg a :
  (forall k, msg = key k -> k <> "ctrl+c" /\ k <> "?") ->
  Update msg a
  = let a1 := match msg with
              | MainUpdate.Program (Main.walgotSelectRowMsg v) =>
                  MainUpdate.mkApp
                    (MainUpdate.withSelectedID (MainUpdate.core a) v)
                    (MainUpdate.widgets a)
              | _ => a
              end in
    if String.eqb (Main.CurrentView (MainUpdate.core a1)) "help"
    then MainUpdate.updateHelpView W C msg a1
    else if Main.SelectedID (MainUpdate.core a1) >? 0
         then MainUpdate.updateEntryView W C ui msg a1
         else MainUpdate.updateListView W C ui msg a1.
Proof.
  intro Hkeys. unfold MainUpdate.Update.
  destruct msg as [[k| | | | |]|]; try reflexivity.
  destruct (Hkeys k eq_refl) as [Hq Hh].
  apply String.eqb_neq in Hq, Hh. now rewrite Hq, Hh.
Qed.

Lemma Update_in_list msg a :
  (forall k, msg = key k -> k <> "ctrl+c" /\ k <> "?") ->
  (forall v, msg <> MainUpdate.Program (Main.walgotSelectRowMsg v)) ->
  Main.CurrentView (MainUpdate.core a) <> "help" ->
  Main.SelectedID (MainUpdate.core a) <= 0 ->
  Update msg a = MainUpdate.updateListView W C ui msg a.
Proof.
  intros Hkeys Hsel Hview Hid. rewrite Update_routes by assumption.
  assert (Ha1 : match msg with
                | MainUpdate.Program (Main.walgotSelectRowMsg v) =>
                    MainUpdate.mkApp
                      (MainUpdate.withSelectedID (MainUpdate.core a) v)
                      (MainUpdate.widgets a)
                | _ => a
                end = a).
  { destruct msg as [[| | | | |v]|]; try reflexivity.
    now contradiction (Hsel v). }
  cbv zeta. rewrite Ha1. apply String.eqb_neq in Hview. rewrite Hview.
  destruct (Z.gtb_spec (Main.SelectedID (MainUpdate.core a)) 0); [lia|].
  reflexivity.
Qed.

Lemma Update_in_help msg a :
  (forall k, msg = key k -> k <> "ctrl+c" /\ k <> "?") ->
  (forall v, msg <> MainUpdate.Program (Main.walgotSelectRowMsg v)) ->
  Main.CurrentView (MainUpdate.core a) = "help" ->
  Update msg a = MainUpdate.updateHelpView W C msg a.
Proof.
  intros Hkeys Hsel Hview. rewrite Update_routes by assumption.
  assert (Ha1 : match msg with
                | MainUpdate.Program (Main.walgotSelectRowMsg v) =>
                    MainUpdate.mkApp
                      (MainUpdate.withSelectedID (MainUpdate.core a) v)
                      (MainUpdate.widgets a)
                | _ => a
                end = a).
  { destruct msg as [[| | | | |v]|]; try reflexivity.
    now contradiction (Hsel v). }
  cbv zeta. rewrite Ha1, Hview. reflexivity.
Qed.

(** X8. The ? key opens the help view from every state, a reload in
    progress included, and while the help view is shown every message
    that is neither a key nor a row selection is dropped with the model
    unchanged and no command: the count and the entries of a running
    synchronization, a window size, a spinner tick. *)
Theorem help_view_drops_messages a msg :
  Update (key "?") a
  = MainUpdate.Next
      (MainUpdate.mkApp (MainUpdate.withCurrentView (MainUpdate.core a) "help")
                        (MainUpdate.widgets a))
      MainUpdate.CmdNil
  /\ (Main.CurrentView (MainUpdate.core a) = "help" ->
      (forall k, msg <> key k) ->
      (forall v, msg <> MainUpdate.Program (Main.walgotSelectRowMsg v)) ->
      Update msg a = MainUpdate.Next a MainUpdate.CmdNil).
Proof.
  split; [reflexivity|]. intros Hview Hkey Hsel.
  rewrite Update_in_help; try assumption.
  - destruct msg as [[k| | | | |]|]; try reflexivity.
    now contradiction (Hkey k).
  - intros k Hk. now contradiction (Hkey k).
Qed.

Ltac list_step :=
  rewrite Update_in_list;
  [ | intros ? [= <-]; split; discriminate | discriminate
    | assumption | assumption ].

(** X9. A reload that the help view interrupts never completes: from
    the list view, after the r key, the ? key, the count answered by the
    server and the q key, the list view is back with Reloading still
    true, the Entries untouched and the count still 0; the count message
    was dropped, so no page request was ever asked for. *)
Theorem reload_interrupted_by_help a n :
  Main.CurrentView (MainUpdate.core a) <> "help" ->
  Main.SelectedID (MainUpdate.core a) <= 0 ->
  exists a',
    run a [key "r"; key "?";
           MainUpdate.Program (Main.wallabagoResponseNbEntitiesMsg n);
           key "q"] = Some a'
    /\ Update (MainUpdate.Program (Main.wallabagoResponseNbEntitiesMsg n))
         (MainUpdate.mkApp
            (MainUpdate.withCurrentView
               (MainUpdate.withTotal
                  (MainUpdate.withReloading (MainUpdate.core a) true) 0)
               "help")
            (MainUpdate.widgets a))
       = MainUpdate.Next
           (MainUpdate.mkApp
              (MainUpdate.withCurrentView
                 (MainUpdate.withTotal
                    (MainUpdate.withReloading (MainUpdate.core a) true) 0)
                 "help")
              (MainUpdate.widgets a))
           MainUpdate.CmdNil
    /\ Main.Reloading (MainUpdate.core a') = true
    /\ Main.CurrentView (MainUpdate.core a') = "list"
    /\ Main.TotalEntriesOnServer (MainUpdate.core a') = 0
    /\ Main.Entries (MainUpdate.core a') = Main.Entries (MainUpdate.core a).
Proof.
  intros Hview Hid. cbn [MainUpdate.run].
  list_step. cbn [MainUpdate.updateListView String.eqb Ascii.eqb Bool.eqb
                  andb orb]. cbv iota.
  eexists. split; [reflexivity|]. repeat split.
Qed.

(** Case analysis of one [Update] step down to its leaves. *)
Ltac split_tests :=
  repeat (match goal with
          | |- context [String.eqb ?x ?y] => destruct (String.eqb_spec x y)
          | |- context [Z.gtb ?x ?y] => destruct (Z.gtb_spec x y)
          | |- context [MainUpdate.viewportUpdate ?u ?m ?w] =>
              destruct (MainUpdate.viewportUpdate u m w)
          | |- context [MainUpdate.spinnerUpdate ?u ?m ?w] =>
              destruct (MainUpdate.spinnerUpdate u m w)
          | |- context [MainUpdate.tableSelectedRow ?u ?r ?w] =>
              destruct (MainUpdate.tableSelectedRow u r w) eqn:?
          | |- context [MainViews.getDetailViewportContent ?f ?g ?h ?i ?e] =>
              let Hd := fresh "Hdetail" in
              destruct (detail_total f g h i e) as [? Hd]; rewrite Hd
          | |- context [if Main.Reloading ?m then _ else _] =>
              destruct (Main.Reloading m) eqn:?
          end;
          cbn [orb andb negb MainUpdate.core MainUpdate.widgets];
          cbv iota beta).

(** The goal must start with the step's equation. *)
Ltac step_cases :=
  unfold MainUpdate.Update, MainUpdate.updateHelpView,
    MainUpdate.updateEntryView, MainUpdate.entrySwitch,
    MainUpdate.updateListView, MainUpdate.movedTable;
  cbv zeta;
  match goal with
  | |- context [match ?m with MainUpdate.Program _ => _ | _ => _ end] =>
      destruct m as [[k|w h| |n|es|v]|tag]
  end;
  cbn [MainUpdate.core MainUpdate.widgets]; cbv iota beta;
  split_tests.

(** X10. [Update] changes the Entries in one situation only: an entries
    message that reaches the list view (not the help view, nothing
    selected).  Then the Entries are those of the message, Reloading is
    false and the rows are recomputed from them under the current
    filters.  Every other step leaves the Entries as they were. *)
Theorem entries_change_only_on_entries_message msg a a' cmd :
  Update msg a = MainUpdate.Next a' cmd ->
  Main.Entries (MainUpdate.core a') = Main.Entries (MainUpdate.core a)
  \/ (exists es,
        msg = MainUpdate.Program (Main.wallabagoResponseEntitiesMsg es)
        /\ Main.CurrentView (MainUpdate.core a) <> "help"
        /\ Main.SelectedID (MainUpdate.core a) <= 0
        /\ Main.Entries (MainUpdate.core a') = es
        /\ Main.Reloading (MainUpdate.core a') = false
        /\ Main.TableRows (MainUpdate.core a')
           = Main.getTableRows (MainUpdate.renderBold ui)
               (MainUpdate.formatDate ui) es
               (Main.Filters (Main.Options (MainUpdate.core a)))).
Proof.
  step_cases; intro Hstep; try discriminate Hstep;
    injection Hstep as <- <-; cbn [MainUpdate.core];
    try (left; reflexivity).
  right. exists es. repeat split; try assumption; lia.
Qed.

Lemma exclusive_after_filters_update k m :
  Main.Unread (Main.Filters (Main.Options m))
  && Main.Archived (Main.Filters (Main.Options m)) = false ->
  Main.Unread (Main.Filters (Main.Options
    (Main.listViewFiltersUpdate (MainUpdate.renderBold ui)
       (MainUpdate.formatDate ui) k m)))
  && Main.Archived (Main.Filters (Main.Options
       (Main.listViewFiltersUpdate (MainUpdate.renderBold ui)
          (MainUpdate.formatDate ui) k m))) = false.
Proof.
  rewrite filters_after_update. cbv zeta.
  destruct (Main.Filters (Main.Options m)) as [a s u]. simpl.
  destruct (String.eqb k "u"), (String.eqb k "s"), (String.eqb k "a"),
    a, s, u; simpl; intro H; try discriminate H; reflexivity.
Qed.

Lemma step_keeps_exclusive msg a a' cmd :
  Update msg a = MainUpdate.Next a' cmd ->
  Main.Unread (Main.Filters (Main.Options (MainUpdate.core a)))
  && Main.Archived (Main.Filters (Main.Options (MainUpdate.core a))) = false ->
  Main.Unread (Main.Filters (Main.Options (MainUpdate.core a')))
  && Main.Archived (Main.Filters (Main.Options (MainUpdate.core a'))) = false.
Proof.
  step_cases; intros Hstep Hex; try discriminate Hstep;
    injection Hstep as <- <-; cbn [MainUpdate.core];
    try exact Hex; now apply exclusive_after_filters_update.
Qed.

Lemma run_keeps_exclusive events : forall a a',
  Main.Unread (Main.Filters (Main.Options (MainUpdate.core a)))
  && Main.Archived (Main.Filters (Main.Options (MainUpdate.core a))) = false ->
  run a events = Some a' ->
  Main.Unread (Main.Filters (Main.Options (MainUpdate.core a')))
  && Main.Archived (Main.Filters (Main.Options (MainUpdate.core a')))
  = false.
Proof.
  induction events as [|e events IH]; intros a a' Hex Hr; simpl in Hr.
  - now injection Hr as <-.
  - destruct (Update e a) as [a1 cmd|] eqn:Hstep; [|discriminate Hr].
    apply (IH a1); [|assumption].
    now apply (step_keeps_exclusive e a a1 cmd).
Qed.

(** X11. The unread and the archived filter are never active together:
    the model [initialModel] builds has the property, every [Update]
    step keeps it, and so has every model the loop reaches from the
    start, whatever the messages. *)
Theorem filters_stay_exclusive w0 events a' :
  run (MainUpdate.initialModel W w0) events = Some a' ->
  Main.Unread (Main.Filters (Main.Options (MainUpdate.core a')))
  && Main.Archived (Main.Filters (Main.Options (MainUpdate.core a')))
  = false.
Proof.
  apply run_keeps_exclusive. reflexivity.
Qed.

(** X12. A reload from the list view runs through: the r key sets
    Reloading, zeroes the count and asks for the count; the count
    message stores it and asks for the entries of that count; the
    message [requestWallabagEntries] answers for that count then makes
    the Entries the items of all its pages in page order, clears
    Reloading and shows their rows under the filters in force. *)
Theorem reload_cycle GetEntries a n :
  Main.CurrentView (MainUpdate.core a) <> "help" ->
  Main.SelectedID (MainUpdate.core a) <= 0 ->
  let fetched := flat_map (mainItemsOf GetEntries 55)
                          (pagesUpTo (Main.requiredCalls n 55)) in
  exists a1 a2 a3,
    Update (key "r") a = MainUpdate.Next a1 MainUpdate.CmdRequestNbEntries
    /\ Main.Reloading (MainUpdate.core a1) = true
    /\ Main.TotalEntriesOnServer (MainUpdate.core a1) = 0
    /\ Update (MainUpdate.Program (Main.wallabagoResponseNbEntitiesMsg n)) a1
       = MainUpdate.Next a2
           (MainUpdate.CmdBatch
              [MainUpdate.CmdRequestEntries n; MainUpdate.CmdSpinnerTick])
    /\ Update (MainUpdate.Program
                 (fst (Main.requestWallabagEntries GetEntries n))) a2
       = MainUpdate.Next a3 MainUpdate.CmdNil
    /\ Main.Entries (MainUpdate.core a3) = fetched
    /\ Main.Reloading (MainUpdate.core a3) = false
    /\ Main.TotalEntriesOnServer (MainUpdate.core a3) = n
    /\ Main.TableRows (MainUpdate.core a3)
       = Main.getTableRows (MainUpdate.renderBold ui)
           (MainUpdate.formatDate ui) fetched
           (Main.Filters (Main.Options (MainUpdate.core a))).
Proof.
  intros Hview Hid fetched.
  rewrite main_requestWallabagEntries_all. cbn [fst].
  do 3 eexists.
  split.
  { list_step. cbn [MainUpdate.updateListView String.eqb Ascii.eqb Bool.eqb
                    andb orb]. cbv iota. reflexivity. }
  split; [reflexivity|]. split; [reflexivity|]. split.
  { rewrite Update_in_list;
      [reflexivity|discriminate|discriminate|assumption|assumption]. }
  split.
  { rewrite Update_in_list;
      [reflexivity|discriminate|discriminate|assumption|assumption]. }
  repeat split.
Qed.

Lemma select_opens_detail a v :
  Main.CurrentView (MainUpdate.core a) <> "help" ->
  0 < v ->
  exists w cmd,
    Update (MainUpdate.Program (Main.walgotSelectRowMsg v)) a
    = MainUpdate.Next
        (MainUpdate.mkApp
           (MainUpdate.withCurrentView
              (MainUpdate.withSelectedID (MainUpdate.core a) v) "detail")
           w)
        cmd.
Proof.
  intros Hview Hv. rewrite Update_routes by discriminate. cbv zeta.
  apply String.eqb_neq in Hview. simpl. rewrite Hview.
  destruct (Z.gtb_spec v 0); [|lia].
  unfold MainUpdate.updateEntryView, MainUpdate.entrySwitch. simpl.
  destruct (detail_total (MainUpdate.FromString ui)
              (MainUpdate.wordwrapString ui) (MainUpdate.renderTitle ui)
              v (Main.Entries (MainUpdate.core a))) as [text Htext].
  rewrite Htext.
  match goal with
  | |- context [MainUpdate.viewportUpdate ?u ?m ?w] =>
      destruct (MainUpdate.viewportUpdate u m w) as [w1 cmd1]
  end.
  now do 2 eexists.
Qed.

Lemma q_leaves_detail a :
  Main.CurrentView (MainUpdate.core a) <> "help" ->
  0 < Main.SelectedID (MainUpdate.core a) ->
  exists w cmd,
    Update (key "q") a
    = MainUpdate.Next
        (MainUpdate.mkApp
           (MainUpdate.withSelectedID
              (MainUpdate.withCurrentView (MainUpdate.core a) "list") 0)
           w)
        cmd.
Proof.
  intros Hview Hid.
  rewrite Update_routes by (intros ? [= <-]; split; discriminate).
  cbv zeta. apply String.eqb_neq in Hview. rewrite Hview.
  destruct (Z.gtb_spec (Main.SelectedID (MainUpdate.core a)) 0); [|lia].
  unfold MainUpdate.updateEntryView, MainUpdate.entrySwitch. simpl.
  match goal with
  | |- context [MainUpdate.viewportUpdate ?u ?m ?w] =>
      destruct (MainUpdate.viewportUpdate u m w) as [w1 cmd1]
  end.
  now do 2 eexists.
Qed.

(** X13. Selecting and leaving an entry: outside the help view a row
    selection with a positive ID never panics, even for an ID no entry
    has, and opens the detail view with that ID selected; the q key
    then brings back the list view with nothing selected, and Entries,
    filters and rows are as they were before the selection. *)
Theorem select_then_back a v :
  Main.CurrentView (MainUpdate.core a) <> "help" ->
  0 < v ->
  exists a1 c1 a2 c2,
    Update (MainUpdate.Program (Main.walgotSelectRowMsg v)) a
    = MainUpdate.Next a1 c1
    /\ Main.CurrentView (MainUpdate.core a1) = "detail"
    /\ Main.SelectedID (MainUpdate.core a1) = v
    /\ Update (key "q") a1 = MainUpdate.Next a2 c2
    /\ Main.CurrentView (MainUpdate.core a2) = "list"
    /\ Main.SelectedID (MainUpdate.core a2) = 0
    /\ Main.Entries (MainUpdate.core a2) = Main.Entries (MainUpdate.core a)
    /\ Main.Options (MainUpdate.core a2) = Main.Options (MainUpdate.core a)
    /\ Main.TableRows (MainUpdate.core a2)
       = Main.TableRows (MainUpdate.core a).
Proof.
  intros Hview Hv.
  destruct (select_opens_detail a v Hview Hv) as (w1 & c1 & Hstep1).
  destruct (q_leaves_detail
              (MainUpdate.mkApp
                 (MainUpdate.withCurrentView
                    (MainUpdate.withSelectedID (MainUpdate.core a) v)
                    "detail") w1)
              ltac:(discriminate) Hv) as (w2 & c2 & Hstep2).
  eexists _, c1, _, c2. rewrite Hstep1, Hstep2. repeat split.
Qed.

(** X14. The enter key selects the entry the cursor is on: in the list
    view, when the rows are those of the Entries under the filters and
    the table's selected row is one of them, the command issued is the
    selection of the ID of an entry that passes the filters, the one
    written in the first cell of that row; the model does not change. *)
Theorem enter_selects_row_entry a :
  Main.CurrentView (MainUpdate.core a) <> "help" ->
  Main.SelectedID (MainUpdate.core a) <= 0 ->
  Main.TableRows (MainUpdate.core a) = MainUpdate.rowsFor W C ui (MainUpdate.core a) ->
  In (MainUpdate.tableSelectedRow ui (Main.TableRows (MainUpdate.core a))
        (MainUpdate.widgets a))
     (Main.TableRows (MainUpdate.core a)) ->
  exists it,
    In it (Main.Entries (MainUpdate.core a))
    /\ passesFilters (Main.Filters (Main.Options (MainUpdate.core a))) it
       = true
    /\ hd "" (MainUpdate.tableSelectedRow ui
                (Main.TableRows (MainUpdate.core a)) (MainUpdate.widgets a))
       = Itoa (ID it)
    /\ Update (key "enter") a
       = MainUpdate.Next a (MainUpdate.CmdSelectEntry (ID it)).
Proof.
  intros Hview Hid Hrows Hin. list_step.
  cbn [MainUpdate.updateListView String.eqb Ascii.eqb Bool.eqb andb orb].
  cbv iota.
  rewrite Hrows in Hin at 2. unfold MainUpdate.rowsFor in Hin.
  rewrite rows_map_filter in Hin. apply in_map_iff in Hin as (it & Hrow & Hit).
  apply filter_In in Hit as [Hit Hpass].
  exists it. rewrite <- Hrow. cbn [Main.tableRow hd].
  rewrite atoi_of_itoa. repeat split; assumption.
Qed.


(** X16. [Update] itself answers the quit command for two inputs only:
    the ctrl+c key, in any state, and the q key in the list view (not
    the help view, nothing selected); in both the model is returned as
    it was. *)
Theorem quit_only_by_ctrl_c_or_q_in_list msg a a' :
  Update msg a = MainUpdate.Next a' MainUpdate.CmdQuit ->
  a' = a
  /\ (msg = key "ctrl+c"
      \/ (msg = key "q"
          /\ Main.CurrentView (MainUpdate.core a) <> "help"
          /\ Main.SelectedID (MainUpdate.core a) <= 0)).
Proof.
  step_cases; intro Hstep; try discriminate Hstep; try congruence.
  all: injection Hstep as <-; subst k; (split; [now destruct a|]);
    first [ now left | right; repeat split; try assumption; lia ].
Qed.

(** X17. A window size message is only taken in the list view.  There
    it stores the size, sets Ready and puts a freshly created table in
    place of the old one, so the model is left without rows although
    its Entries and filters are untouched.  In the detail view the
    message only reaches the viewport: size, Ready and rows stay. *)
Theorem resize_replaces_table a w h :
  Main.CurrentView (MainUpdate.core a) <> "help" ->
  (Main.SelectedID (MainUpdate.core a) <= 0 ->
   exists a',
     Update (MainUpdate.Program (Main.WindowSizeMsg w h)) a
     = MainUpdate.Next a' MainUpdate.CmdNil
     /\ Main.TableRows (MainUpdate.core a') = []
     /\ Main.Ready (MainUpdate.core a') = true
     /\ Main.TermSize (MainUpdate.core a') = Main.mkTermSize w h
     /\ Main.Entries (MainUpdate.core a') = Main.Entries (MainUpdate.core a)
     /\ Main.Options (MainUpdate.core a') = Main.Options (MainUpdate.core a))
  /\ (0 < Main.SelectedID (MainUpdate.core a) ->
      exists w' cmd,
        Update (MainUpdate.Program (Main.WindowSizeMsg w h)) a
        = MainUpdate.Next (MainUpdate.mkApp (MainUpdate.core a) w') cmd).
Proof.
  intro Hview. split; intro Hid.
  - rewrite Update_in_list;
      [|discriminate|discriminate|assumption|assumption].
    eexists. split; [reflexivity|]. repeat split.
  - rewrite Update_routes by discriminate. cbv zeta.
    apply String.eqb_neq in Hview. rewrite Hview.
    destruct (Z.gtb_spec (Main.SelectedID (MainUpdate.core a)) 0); [|lia].
    unfold MainUpdate.updateEntryView, MainUpdate.entrySwitch.
    match goal with
    | |- context [MainUpdate.viewportUpdate ?u ?m ?x] =>
        destruct (MainUpdate.viewportUpdate u m x) as [w1 cmd1]
    end.
    now do 2 eexists.
Qed.

Lemma unread_only_passes it :
  passesFilters (Main.mkFilters false false true) it = (IsArchived it =? 0).
Proof.
  unfold passesFilters. simpl. now rewrite !andb_true_r.
Qed.

(** X18. Start-up: from [initialModel], after the first window size,
    the count and the entries of the first synchronization, the model
    is Ready and no longer Reloading, holds the count and the entries,
    and its rows are those of the entries that are not archived, in the
    order received: the start-up filter is "unread". *)
Theorem startup_shows_unread w0 w h n es :
  exists a',
    run (MainUpdate.initialModel W w0)
      [MainUpdate.Program (Main.WindowSizeMsg w h);
       MainUpdate.Program (Main.wallabagoResponseNbEntitiesMsg n);
       MainUpdate.Program (Main.wallabagoResponseEntitiesMsg es)]
    = Some a'
    /\ Main.Ready (MainUpdate.core a') = true
    /\ Main.Reloading (MainUpdate.core a') = false
    /\ Main.TotalEntriesOnServer (MainUpdate.core a') = n
    /\ Main.Entries (MainUpdate.core a') = es
    /\ Main.TableRows (MainUpdate.core a')
       = map (Main.tableRow (MainUpdate.renderBold ui)
                (MainUpdate.formatDate ui))
             (filter (fun it => IsArchived it =? 0) es).
Proof.
  eexists. split; [reflexivity|]. repeat split.
  cbn [MainUpdate.core Main.TableRows Main.setRows MainUpdate.rowsFor
       MainUpdate.withEntries MainUpdate.withReloading MainUpdate.withTotal
       MainUpdate.withReady MainUpdate.withTermSize Main.Entries
       Main.Options Main.Filters].
  unfold MainUpdate.rowsFor. rewrite rows_map_filter. f_equal.
  apply filter_ext. exact unread_only_passes.
Qed.


(** *** The views *)

Variable renderTitleStyle : Z -> string -> string.
Variable renderCentered : Z -> string -> string.
Variable joinHorizontal : string -> string -> string.
Variable renderPlain : string -> string.
Variable spinnerView : W -> string.
Variables helpView entryDetailView listView : MainUpdate.app W -> string.

Local Notation "'mainView'" :=
  (MainScreen.mainView W renderCentered spinnerView helpView entryDetailView
     listView).
Local Notation "'headerView'" :=
  (MainScreen.headerView renderTitleStyle joinHorizontal
     (MainUpdate.renderBold ui) renderPlain).

(** X26. The screen drawn and the updater that takes a message are
    chosen by the same tests once the model is ready and not reloading:
    help, then detail for a selected entry, then the list.  During a
    reload the loading screen is drawn whatever the view, but messages
    are routed as before: with the list view underneath, the q key
    pressed on the loading screen ends the program. *)
Theorem view_follows_updater a msg :
  Main.Ready (MainUpdate.core a) = true ->
  (forall k, msg = key k -> k <> "ctrl+c" /\ k <> "?") ->
  (forall v, msg <> MainUpdate.Program (Main.walgotSelectRowMsg v)) ->
  (Main.Reloading (MainUpdate.core a) = false ->
   (Main.CurrentView (MainUpdate.core a) = "help"
    /\ mainView a = helpView a
    /\ Update msg a = MainUpdate.updateHelpView W C msg a)
   \/ (Main.CurrentView (MainUpdate.core a) <> "help"
       /\ 0 < Main.SelectedID (MainUpdate.core a)
       /\ mainView a = entryDetailView a
       /\ Update msg a = MainUpdate.updateEntryView W C ui msg a)
   \/ (Main.CurrentView (MainUpdate.core a) <> "help"
       /\ Main.SelectedID (MainUpdate.core a) <= 0
       /\ mainView a = listView a
       /\ Update msg a = MainUpdate.updateListView W C ui msg a))
  /\ (Main.Reloading (MainUpdate.core a) = true ->
      mainView a
      = renderCentered (Main.Width (Main.TermSize (MainUpdate.core a)))
          (spinnerView (MainUpdate.widgets a)
             ++ ("Loading all"
                   ++ (if Main.TotalEntriesOnServer (MainUpdate.core a) >? 0
                       then " " ++ Itoa (Main.TotalEntriesOnServer
                                           (MainUpdate.core a))
                       else ""))
             ++ " entries from wallabag…")%string
      /\ (Main.CurrentView (MainUpdate.core a) <> "help" ->
          Main.SelectedID (MainUpdate.core a) <= 0 ->
          Update (key "q") a = MainUpdate.Next a MainUpdate.CmdQuit)).
Proof.
  clear renderTitleStyle joinHorizontal renderPlain.
  intros Hready Hkeys Hsel. split; intro Hrel.
  - unfold MainScreen.mainView. cbv zeta. rewrite Hready, Hrel. cbn [negb].
    destruct (String.eqb_spec (Main.CurrentView (MainUpdate.core a)) "help")
      as [Hview|Hview].
    + left. repeat split; try assumption. now apply Update_in_help.
    + right.
      destruct (Z.gtb_spec (Main.SelectedID (MainUpdate.core a)) 0)
        as [Hid|Hid].
      * left. repeat split; try assumption.
        rewrite Update_routes by assumption.
        assert (Ha1 : match msg with
                      | MainUpdate.Program (Main.walgotSelectRowMsg v) =>
                          MainUpdate.mkApp
                            (MainUpdate.withSelectedID (MainUpdate.core a) v)
                            (MainUpdate.widgets a)
                      | _ => a
                      end = a).
        { destruct msg as [[| | | | |v]|]; try reflexivity.
          now contradiction (Hsel v). }
        cbv zeta. rewrite Ha1. apply String.eqb_neq in Hview.
        rewrite Hview.
        destruct (Z.gtb_spec (Main.SelectedID (MainUpdate.core a)) 0);
          [reflexivity|lia].
      * right. repeat split; try assumption. now apply Update_in_list.
  - split.
    + unfold MainScreen.mainView. cbv zeta. rewrite Hready, Hrel.
      cbn [negb].
      destruct (Main.TotalEntriesOnServer (MainUpdate.core a) >? 0);
        reflexivity.
    + intros Hview Hid. list_step. reflexivity.
Qed.

(** X27. The subtitle of the header, for every model the loop reaches
    from the start: it is empty exactly during a reload, otherwise it
    is All or names the active filters, never Unread together with
    Archived; and a load that ends before the first window size is
    labelled All whatever the filters. *)
Theorem header_subtitle_of_reachable w0 events a' :
  run (MainUpdate.initialModel W w0) events = Some a' ->
  exists subtitle,
    headerView (MainUpdate.core a')
    = renderTitleStyle (Main.Width (Main.TermSize (MainUpdate.core a')))
        (joinHorizontal (MainUpdate.renderBold ui "Walgot")
           (renderPlain subtitle))
    /\ In subtitle [""; " - All"; " - Unread"; " - Starred"; " - Archived";
                    " - Unread - Starred"; " - Starred - Archived"]
    /\ (subtitle = "" <-> Main.Reloading (MainUpdate.core a') = true)
    /\ (Main.Reloading (MainUpdate.core a') = false ->
        Main.Ready (MainUpdate.core a') = false -> subtitle = " - All").
Proof.
  clear renderCentered spinnerView helpView entryDetailView listView.
  intro Hrun.
  pose proof (run_keeps_exclusive events (MainUpdate.initialModel W w0) a'
                eq_refl Hrun) as Hex.
  unfold MainScreen.headerView. cbv zeta.
  destruct (MainUpdate.core a')
    as [rows es ready rel sid ts cv [[ar st un]] tot].
  cbn [Main.Filters Main.Options Main.Unread Main.Archived Main.Starred
       Main.Reloading Main.Ready Main.TermSize] in Hex |- *.
  destruct rel, ready, ar, st, un; try discriminate Hex;
    cbn [negb andb append String.length Nat.eqb];
    eexists; (split; [reflexivity|]);
    (split; [simpl; tauto|]);
    (split; [split; intro H; discriminate H || reflexivity
            |intros H1 H2; discriminate H1 || discriminate H2 || reflexivity]).
Qed.

End LoopFacts.

(** ** Package tui: the cache across attempts *)

Lemma new_file_mode_passes umask : Tui.modeCheck (Z.ldiff 384 umask) = false.
Proof.
  rewrite modeCheck_bit0, Z.ldiff_spec. reflexivity.
Qed.

Section TuiCacheFacts.

Variable env : Tui.Env.
Variable getRequiredNbAPICalls : Z -> Z -> Z.
Variables nbArticles nbEntriesPerAPICall : Z.
Variables sortField sortOrder : string.

Local Notation "'pageError' i" :=
  (snd (Tui.GetEntries env nbEntriesPerAPICall i sortField sortOrder))
  (at level 10, i at level 9).
Local Notation "'req'" :=
  (tuiRequest nbEntriesPerAPICall sortField sortOrder).
Local Notation "'itemsOf'" :=
  (tuiItemsOf env nbEntriesPerAPICall sortField sortOrder).
Local Notation "'pages'" :=
  (pagesUpTo (getRequiredNbAPICalls nbArticles nbEntriesPerAPICall)).
Local Notation "'command'" :=
  (Tui.fetchCommand env getRequiredNbAPICalls nbArticles
     nbEntriesPerAPICall sortField sortOrder).
Local Notation "'sync'" :=
  (Tui.sync env getRequiredNbAPICalls nbArticles nbEntriesPerAPICall
     sortField sortOrder).

Lemma sync_cache_hit w f entries :
  Tui.cacheFile w = Some f ->
  Tui.modeCheck (Tui.fileMode f) = false ->
  Tui.readFileError env = None ->
  Tui.gobDecode env (Tui.fileData f) = (entries, None) ->
  entries <> [] ->
  sync w = (Tui.wallabagoResponseEntitiesMsg entries,
            addEffects w [Tui.EStat; Tui.EReadFile]).
Proof.
  intros Hf Hmode Hread Hdec Hne.
  unfold Tui.sync, Tui.requestWallabagEntries, Tui.bind, Tui.osStat,
    Tui.osReadFile, Tui.bind, Tui.did, Tui.ret, addEffects.
  destruct w as [c effs]; simpl in *. subst c. simpl.
  rewrite Hmode. simpl. rewrite Hread, Hdec. simpl.
  unfold Tui.fetchCommand.
  destruct entries as [|e rest]; [contradiction|].
  simpl. unfold Tui.ret. now rewrite <- app_assoc.
Qed.

(** X19. A cache file that passes the mode test, can be read and decodes
    to at least one entry answers the attempt by itself: the entries
    message carries the decoded entries and the only effects are the
    stat and the read of the file.  No page is requested and nothing is
    written, whatever the count, the page size and the sort asked for:
    as long as such a file is there, no attempt reaches the server. *)
Theorem cache_hit_skips_remote w f entries :
  Tui.cacheFile w = Some f ->
  Tui.modeCheck (Tui.fileMode f) = false ->
  Tui.readFileError env = None ->
  Tui.gobDecode env (Tui.fileData f) = (entries, None) ->
  entries <> [] ->
  sync w = (Tui.wallabagoResponseEntitiesMsg entries,
            addEffects w [Tui.EStat; Tui.EReadFile])
  /\ Tui.cacheFile (snd (sync w)) = Tui.cacheFile w.
Proof.
  intros Hf Hmode Hread Hdec Hne.
  rewrite (sync_cache_hit w f entries) by assumption. now split.
Qed.

Lemma sync_success w bytes :
  reachesFetch env w ->
  (forall i, In i pages -> pageError i = None) ->
  Tui.openFileError env = None ->
  Tui.gobEncode env (flat_map itemsOf pages) = (bytes, None) ->
  fst (sync w) = Tui.wallabagoResponseEntitiesMsg (flat_map itemsOf pages)
  /\ Tui.cacheFile (snd (sync w))
     = Some (Tui.mkCacheFile (opened env w) bytes)
  /\ Tui.modeCheck (opened env w) = false.
Proof.
  intros Hreach Hok Hopen Henc.
  destruct (sync_reaches_fetch env getRequiredNbAPICalls nbArticles
              nbEntriesPerAPICall sortField sortOrder w Hreach)
    as (es & _ & ->).
  rewrite (command_after_open env getRequiredNbAPICalls nbArticles
             nbEntriesPerAPICall sortField sortOrder _ Hok Hopen).
  cbv zeta. rewrite Henc. simpl. repeat split.
  unfold opened, reachesFetch in *. simpl.
  destruct (Tui.cacheFile w) as [f|]; [tauto|apply new_file_mode_passes].
Qed.

(** X20. A successful attempt writes through: when the fetch is reached,
    every page answers, the file opens and the encoding succeeds, the
    cache file afterwards holds the encoded entries, under the mode it
    had before or, for a new file, 0600 less the umask, and that mode
    passes the mode test of the next attempt. *)
Theorem successful_sync_writes_cache w bytes :
  reachesFetch env w ->
  (forall i, In i pages -> pageError i = None) ->
  Tui.openFileError env = None ->
  Tui.gobEncode env (flat_map itemsOf pages) = (bytes, None) ->
  fst (sync w) = Tui.wallabagoResponseEntitiesMsg (flat_map itemsOf pages)
  /\ Tui.cacheFile (snd (sync w))
     = Some (Tui.mkCacheFile
               (match Tui.cacheFile w with
                | Some f => Tui.fileMode f
                | None => Z.ldiff 384 (Tui.umask env)
                end)
               bytes)
  /\ Tui.modeCheck
       (match Tui.cacheFile w with
        | Some f => Tui.fileMode f
        | None => Z.ldiff 384 (Tui.umask env)
        end) = false.
Proof. exact (sync_success w bytes). Qed.

(** X21. Round trip through the cache: if gob decodes what it encoded,
    then after a successful attempt that fetched at least one entry the
    next attempt, whatever its arguments, answers the same entries in
    the same order from the file alone, without any request. *)
Theorem cache_round_trip w bytes :
  reachesFetch env w ->
  (forall i, In i pages -> pageError i = None) ->
  Tui.openFileError env = None ->
  Tui.gobEncode env (flat_map itemsOf pages) = (bytes, None) ->
  Tui.gobDecode env bytes = (flat_map itemsOf pages, None) ->
  Tui.readFileError env = None ->
  flat_map itemsOf pages <> [] ->
  forall helper' n' p' sortField' sortOrder',
    Tui.sync env helper' n' p' sortField' sortOrder' (snd (sync w))
    = (fst (sync w),
       addEffects (snd (sync w)) [Tui.EStat; Tui.EReadFile]).
Proof.
  intros Hreach Hok Hopen Henc Hdec Hread Hne helper' n' p' sf' so'.
  destruct (sync_success w bytes Hreach Hok Hopen Henc)
    as (Hmsg & Hfile & Hmode).
  rewrite Hmsg.
  unfold Tui.sync at 1, Tui.requestWallabagEntries, Tui.bind, Tui.osStat,
    Tui.osReadFile, Tui.bind, Tui.did, Tui.ret, addEffects.
  destruct (snd (sync w)) as [c effs]. simpl in *. subst c. simpl.
  rewrite Hmode. simpl. rewrite Hread, Hdec. simpl.
  unfold Tui.fetchCommand.
  destruct (flat_map itemsOf pages) as [|e rest]; [contradiction|].
  simpl. unfold Tui.ret. now rewrite <- app_assoc.
Qed.




End TuiCacheFacts.

(** ** Package tui: start-up and the mutation commands *)

Section TuiStartFacts.

Variable updateDialogView : Tui.Msg -> Tui.model -> Tui.model * Tui.Cmd.
Variable updateHelpView : Tui.Msg -> Tui.model -> Tui.model * Tui.Cmd.
Variable updateEntryView : Tui.Msg -> Tui.model -> Tui.model * Tui.Cmd.
Variable updateListView : Tui.Msg -> Tui.model -> Tui.model * Tui.Cmd.
Variable updatedEntryInModel : Tui.model -> Item -> Tui.model.

Local Notation "'Update'" :=
  (Tui.Update updateDialogView updateHelpView updateEntryView
     updateListView updatedEntryInModel).

(** X23. Start-up: the model [NewModel] builds has the archived filter
    off, so unread and archived are not both active; it is Reloading,
    so the ? key does not open the help view yet; a count message
    reaches the list updater with the model untouched; and a failed
    count request ends in the dialog updater with Reloading false and
    the error text as dialog message. *)
Theorem tui_startup config env n e :
  let m0 := TuiStart.NewModel config in
  Tui.GetNbTotalEntries env = (n, Some e) ->
  Tui.Archived (Tui.Filters (Tui.Options m0)) = false
  /\ Update m0 (Tui.KeyMsg "?") = updateListView (Tui.KeyMsg "?") m0
  /\ (forall k, Update m0 (Tui.wallabagoResponseNbEntitiesMsg k)
               = updateListView (Tui.wallabagoResponseNbEntitiesMsg k) m0)
  /\ Update m0 (Tui.requestWallabagNbEntries env)
     = updateDialogView (Tui.requestWallabagNbEntries env)
         (Tui.withDialogMessage (Tui.withReloading m0 false)
            Tui.countMessage).
Proof.
  intros m0 Hfail. split; [reflexivity|]. split; [reflexivity|].
  split; [reflexivity|].
  unfold Tui.requestWallabagNbEntries. rewrite Hfail.
  apply update_error_to_dialog. discriminate.
Qed.

Variable api : TuiCommands.Api.

(** X24. [requestWallabagAddEntry] validates before it calls: it makes
    at most one call to the API, that call is the addition of the given
    URL, and it is made only if [isValidURL] accepts the URL; a rejected
    URL is answered with the "Invalid URL" error and no call. *)
Theorem add_entry_validates_first url :
  (forall c, In c (snd (TuiCommands.requestWallabagAddEntry api url)) ->
             c = TuiCommands.AddEntryCall url
             /\ TuiCommands.isValidURL api url = true)
  /\ (List.length (snd (TuiCommands.requestWallabagAddEntry api url)) <= 1)%nat
  /\ (TuiCommands.isValidURL api url = false ->
      TuiCommands.requestWallabagAddEntry api url
      = (Tui.wallabagoResponseErrorMsg TuiCommands.invalidURLMessage
           (Some "invalid URL given"), [])).
Proof.
  unfold TuiCommands.requestWallabagAddEntry.
  destruct (TuiCommands.isValidURL api url); simpl.
  - destruct (TuiCommands.AddEntry api url) as [r [e|]]; simpl;
      (split; [intros c [<-|[]]; now split|]);
      (split; [apply Nat.le_refl|discriminate]).
  - split; [intros c []|]. split; [apply Nat.le_0_l|reflexivity].
Qed.

(** X25. A status update and what [Update] makes of it: the command
    makes exactly one call; when the call and the decoding of its
    answer succeed, [Update] stores the decoded entry with
    [updatedEntryInModel] and schedules, 5 seconds later, the message
    that blanks the update banner; when the call fails, or when its
    answer does not decode, [Update] opens the dialog, with a different
    text for each of the two failures. *)
Theorem entry_update_outcomes entryID archive starred public m :
  let run := TuiCommands.requestWallabagEntryUpdate api entryID archive
               starred public in
  let answer := TuiCommands.UpdateEntry api entryID archive starred public in
  snd run = [TuiCommands.UpdateEntryCall entryID archive starred public]
  /\ (forall item,
        snd answer = None ->
        TuiCommands.jsonUnmarshal api (fst answer) = (item, None) ->
        Update m (fst run)
        = (updatedEntryInModel m item,
           Tui.CmdTick 5 (Tui.wallabagoResponseClearMsg true)))
  /\ (snd answer <> None ->
      Update m (fst run)
      = updateDialogView (fst run)
          (Tui.withDialogMessage (Tui.withReloading m false)
             TuiCommands.updateFailedMessage))
  /\ (snd answer = None ->
      snd (TuiCommands.jsonUnmarshal api (fst answer)) <> None ->
      Update m (fst run)
      = updateDialogView (fst run)
          (Tui.withDialogMessage (Tui.withReloading m false)
             TuiCommands.invalidResponseMessage))
  /\ TuiCommands.updateFailedMessage <> TuiCommands.invalidResponseMessage
  /\ Tui.UpdateMessage
       (match Tui.priorityMessages updatedEntryInModel m
                (Tui.wallabagoResponseClearMsg true) with
        | Tui.Continue m' => m'
        | Tui.Return (m', _) => m'
        end) = "".
Proof.
  cbv zeta. unfold TuiCommands.requestWallabagEntryUpdate.
  destruct (TuiCommands.UpdateEntry api entryID archive starred public)
    as [r [e|]]; simpl.
  - split; [reflexivity|]. split; [discriminate|]. split.
    + intros _. apply update_error_to_dialog. discriminate.
    + split; [congruence|]. split; [discriminate|reflexivity].
  - destruct (TuiCommands.jsonUnmarshal api r) as [item [e|]]; simpl.
    + split; [reflexivity|]. split; [discriminate|].
      split; [congruence|]. split.
      * intros _ _. apply update_error_to_dialog. discriminate.
      * split; [discriminate|reflexivity].
    + split; [reflexivity|]. split.
      * intros item' _ [= <-]. reflexivity.
      * split; [congruence|]. split; [congruence|].
        split; [discriminate|reflexivity].
Qed.

End TuiStartFacts.

(** ** The further properties on concrete runs *)

Lemma getSelectedEntryIndex_missing_witness :
  MainViews.getSelectedEntryIndex [entry1; entry2] 7 = -1.
Proof.
  apply (proj2 (proj1 (getSelectedEntryIndex_missing [entry1; entry2] 7))).
  intros e [<-|[<-|[]]]; discriminate.
Defined.

Lemma getSelectedEntryIndex_first_match_witness :
  exists e,
    MainViews.atIndex [entry1; entry2]
      (MainViews.getSelectedEntryIndex [entry1; entry2] 2) = Some e
    /\ ID e = 2.
Proof.
  destruct (getSelectedEntryIndex_first_match [entry1; entry2] 2
              ltac:(vm_compute; discriminate))
    as (before & e & after & _ & Hid & _ & _ & _ & Hat).
  exists e. split; assumption.
Defined.

Lemma detail_content_of_missing_entry_witness :
  MainViews.getDetailViewportContent (fun html => (html, None))
    (fun s width => s) (fun s => s) 7 [entry1; entry2]
  = Some ("Title loading…" ++ MainViews.twoNewlines
            ++ "Content loading…")%string.
Proof.
  apply (proj2 (detail_content_of_missing_entry (fun html => (html, None))
                  (fun s width => s) (fun s => s) 7 [entry1; entry2])).
  intros e [<-|[<-|[]]]; discriminate.
Defined.

Lemma detail_content_of_first_match_witness :
  MainViews.getDetailViewportContent (fun html => (html, None))
    (fun s width => s) (fun s => s) 2 ([entry1] ++ entry2 :: [])
  = Some ("two" ++ MainViews.twoNewlines ++ "")%string.
Proof.
  apply (detail_content_of_first_match (fun html => (html, None))
           (fun s width => s) (fun s => s) 2 [entry1] entry2 [] eq_refl).
  intros x [<-|[]]; discriminate.
Defined.

Lemma table_columns_fit_witness :
  fold_right Z.add 0
    (map table.Width (MainViews.createViewTableColumns 85)) = 80.
Proof.
  exact (proj1 (table_columns_fit 85 ltac:(lia))).
Defined.

Lemma rows_count_witness :
  Main.getTableRows (fun s => s) Itoa [entry1; entry2]
    (Main.mkFilters true false true) = [].
Proof.
  exact (proj2 (proj2 (rows_count (fun s => s) Itoa [entry1; entry2]
                         (Main.mkFilters true false true)))
           eq_refl eq_refl).
Defined.

Lemma row_id_cell_parses_back_witness :
  List.length (Main.tableRow (fun s => s) Itoa entry1) = 6%nat.
Proof.
  exact (proj1 (row_id_cell_parses_back (fun s => s) Itoa [entry1; entry2]
                  onlyUnread (Main.tableRow (fun s => s) Itoa entry1)
                  (or_introl eq_refl))).
Defined.

Lemma help_view_drops_messages_witness :
  MainUpdate.Update Z unit sampleUi
    (MainUpdate.Program (Main.wallabagoResponseEntitiesMsg [entry1])) helpApp
  = MainUpdate.Next helpApp MainUpdate.CmdNil.
Proof.
  apply (proj2 (help_view_drops_messages Z unit sampleUi helpApp
                  (MainUpdate.Program
                     (Main.wallabagoResponseEntitiesMsg [entry1]))));
    [reflexivity|discriminate|discriminate].
Defined.

Lemma reload_interrupted_by_help_witness :
  exists a',
    MainUpdate.run Z unit sampleUi loadedApp
      [MainUpdate.Program (Main.KeyMsg "r");
       MainUpdate.Program (Main.KeyMsg "?");
       MainUpdate.Program (Main.wallabagoResponseNbEntitiesMsg 2);
       MainUpdate.Program (Main.KeyMsg "q")] = Some a'
    /\ Main.Reloading (MainUpdate.core a') = true.
Proof.
  destruct (reload_interrupted_by_help Z unit sampleUi loadedApp 2
              ltac:(discriminate) ltac:(discriminate))
    as (a' & Hrun & _ & Hreload & _).
  exists a'. split; assumption.
Defined.

Lemma entries_change_only_on_entries_message_witness :
  Main.Entries
    (MainUpdate.core
       (MainUpdate.mkApp (MainUpdate.core loadedApp) 0))
  = Main.Entries (MainUpdate.core loadedApp).
Proof.
  destruct (entries_change_only_on_entries_message Z unit sampleUi
              (MainUpdate.Program (Main.KeyMsg "j")) loadedApp
              (MainUpdate.mkApp (MainUpdate.core loadedApp) 0)
              MainUpdate.CmdNil eq_refl) as [H|(es & Hmsg & _)].
  - exact H.
  - discriminate Hmsg.
Defined.

Lemma filters_stay_exclusive_witness :
  option_map
    (fun a' =>
       Main.Unread (Main.Filters (Main.Options (MainUpdate.core a')))
       && Main.Archived (Main.Filters (Main.Options (MainUpdate.core a'))))
    (MainUpdate.run Z unit sampleUi (MainUpdate.initialModel Z 0)
       [MainUpdate.Program (Main.KeyMsg "a");
        MainUpdate.Program (Main.KeyMsg "u")])
  = Some false.
Proof.
  destruct (MainUpdate.run Z unit sampleUi (MainUpdate.initialModel Z 0)
              [MainUpdate.Program (Main.KeyMsg "a");
               MainUpdate.Program (Main.KeyMsg "u")]) as [a'|] eqn:Hrun.
  - simpl. f_equal.
    exact (filters_stay_exclusive Z unit sampleUi 0 _ a' Hrun).
  - vm_compute in Hrun. discriminate Hrun.
Defined.

Lemma reload_cycle_witness :
  exists a3,
    MainUpdate.run Z unit sampleUi loadedApp
      [MainUpdate.Program (Main.KeyMsg "r");
       MainUpdate.Program (Main.wallabagoResponseNbEntitiesMsg 120);
       MainUpdate.Program
         (fst (Main.requestWallabagEntries flakyGetEntries 120))]
    = Some a3
    /\ Main.Reloading (MainUpdate.core a3) = false
    /\ Main.TotalEntriesOnServer (MainUpdate.core a3) = 120.
Proof.
  destruct (reload_cycle Z unit sampleUi flakyGetEntries loadedApp 120
              ltac:(discriminate) ltac:(discriminate))
    as (a1 & a2 & a3 & H1 & _ & _ & H2 & H3 & _ & Hreload & Htotal & _).
  exists a3. cbn [MainUpdate.run]. rewrite H1, H2, H3.
  repeat split; assumption.
Defined.

Lemma select_then_back_witness :
  exists a1 c1 a2 c2,
    MainUpdate.Update Z unit sampleUi
      (MainUpdate.Program (Main.walgotSelectRowMsg 1)) loadedApp
    = MainUpdate.Next a1 c1
    /\ MainUpdate.Update Z unit sampleUi
         (MainUpdate.Program (Main.KeyMsg "q")) a1
       = MainUpdate.Next a2 c2
    /\ Main.SelectedID (MainUpdate.core a2) = 0.
Proof.
  destruct (select_then_back Z unit sampleUi loadedApp 1
              ltac:(discriminate) ltac:(reflexivity))
    as (a1 & c1 & a2 & c2 & H1 & _ & _ & H2 & _ & Hid & _).
  exists a1, c1, a2, c2. repeat split; assumption.
Defined.

Lemma enter_selects_row_entry_witness :
  exists it,
    In it [entry1; entry2]
    /\ MainUpdate.Update Z unit sampleUi
         (MainUpdate.Program (Main.KeyMsg "enter")) loadedApp
       = MainUpdate.Next loadedApp (MainUpdate.CmdSelectEntry (ID it)).
Proof.
  destruct (enter_selects_row_entry Z unit sampleUi loadedApp
              ltac:(discriminate) ltac:(discriminate) eq_refl
              (or_introl eq_refl))
    as (it & Hin & _ & _ & Hstep).
  exists it. split; assumption.
Defined.


Lemma quit_only_by_ctrl_c_or_q_in_list_witness :
  MainUpdate.Program (Main.KeyMsg "q")
  = MainUpdate.Program (Main.KeyMsg "ctrl+c")
  \/ (MainUpdate.Program (Main.KeyMsg "q")
      = MainUpdate.Program (Main.KeyMsg "q")
      /\ Main.CurrentView (MainUpdate.core loadedApp) <> "help"
      /\ Main.SelectedID (MainUpdate.core loadedApp) <= 0).
Proof.
  exact (proj2 (quit_only_by_ctrl_c_or_q_in_list Z unit sampleUi
                  (MainUpdate.Program (Main.KeyMsg "q")) loadedApp
                  loadedApp eq_refl)).
Defined.

Lemma resize_replaces_table_witness :
  exists a',
    MainUpdate.Update Z unit sampleUi
      (MainUpdate.Program (Main.WindowSizeMsg 100 40)) loadedApp
    = MainUpdate.Next a' MainUpdate.CmdNil
    /\ Main.TableRows (MainUpdate.core a') = []
    /\ Main.Entries (MainUpdate.core a') = [entry1; entry2].
Proof.
  destruct (proj1 (resize_replaces_table Z unit sampleUi loadedApp 100 40
                     ltac:(discriminate)) ltac:(discriminate))
    as (a' & Hstep & Hrows & _ & _ & Hentries & _).
  exists a'. repeat split; assumption.
Defined.

Lemma cache_hit_skips_remote_witness :
  Tui.sync (envOf flakyPage (Some "permission denied")) Main.requiredCalls
    120 55 "created" "desc" (cacheWith 384 [Byte.x01])
  = (Tui.wallabagoResponseEntitiesMsg [entry1],
     addEffects (cacheWith 384 [Byte.x01]) [Tui.EStat; Tui.EReadFile]).
Proof.
  exact (proj1 (cache_hit_skips_remote
                  (envOf flakyPage (Some "permission denied"))
                  Main.requiredCalls 120 55 "created" "desc"
                  (cacheWith 384 [Byte.x01])
                  (Tui.mkCacheFile 384 [Byte.x01]) [entry1]
                  eq_refl eq_refl eq_refl eq_refl ltac:(discriminate))).
Defined.

Lemma successful_sync_writes_cache_witness :
  Tui.cacheFile
    (snd (Tui.sync (envOf goodPage None) Main.requiredCalls 1 55 "created"
            "desc" noCache))
  = Some (Tui.mkCacheFile 384 [Byte.x01]).
Proof.
  exact (proj1 (proj2 (successful_sync_writes_cache (envOf goodPage None)
                         Main.requiredCalls 1 55 "created" "desc" noCache
                         [Byte.x01] I
                         ltac:(intros i [<-|[]]; reflexivity)
                         eq_refl eq_refl))).
Defined.

Lemma cache_round_trip_witness :
  Tui.sync (envOf goodPage None) (fun n p => 3) 120 10 "updated" "asc"
    (snd (Tui.sync (envOf goodPage None) Main.requiredCalls 1 55 "created"
            "desc" noCache))
  = (Tui.wallabagoResponseEntitiesMsg [entry1],
     addEffects
       (snd (Tui.sync (envOf goodPage None) Main.requiredCalls 1 55
               "created" "desc" noCache))
       [Tui.EStat; Tui.EReadFile]).
Proof.
  exact (cache_round_trip (envOf goodPage None) Main.requiredCalls 1 55
           "created" "desc" noCache [Byte.x01] I
           ltac:(intros i [<-|[]]; reflexivity)
           eq_refl eq_refl eq_refl eq_refl ltac:(discriminate)
           (fun n p => 3) 120 10 "updated" "asc").
Defined.


Lemma tui_startup_witness :
  Tui.Update (tagged "dialog") (tagged "help") (tagged "detail")
    (tagged "list") (fun m _ => m) (TuiStart.NewModel sampleConfig)
    (Tui.requestWallabagNbEntries downEnv)
  = tagged "dialog" (Tui.requestWallabagNbEntries downEnv)
      (Tui.withDialogMessage
         (Tui.withReloading (TuiStart.NewModel sampleConfig) false)
         Tui.countMessage).
Proof.
  exact (proj2 (proj2 (proj2
           (tui_startup (tagged "dialog") (tagged "help") (tagged "detail")
              (tagged "list") (fun m _ => m) sampleConfig downEnv 0
              "connection refused" eq_refl)))).
Defined.

Lemma add_entry_validates_first_witness :
  TuiCommands.requestWallabagAddEntry sampleApi "ftp//nowhere"
  = (Tui.wallabagoResponseErrorMsg TuiCommands.invalidURLMessage
       (Some "invalid URL given"), []).
Proof.
  exact (proj2 (proj2 (add_entry_validates_first sampleApi "ftp//nowhere"))
           eq_refl).
Defined.

Lemma entry_update_outcomes_witness :
  Tui.Update (tagged "dialog") (tagged "help") (tagged "detail")
    (tagged "list") (fun m _ => m) idleModel
    (fst (TuiCommands.requestWallabagEntryUpdate sampleApi 1 1 0 0))
  = (idleModel, Tui.CmdTick 5 (Tui.wallabagoResponseClearMsg true)).
Proof.
  exact (proj1 (proj2
           (entry_update_outcomes (tagged "dialog") (tagged "help")
              (tagged "detail") (tagged "list") (fun m _ => m) sampleApi
              1 1 0 0 idleModel))
           entry1 eq_refl eq_refl).
Defined.

Lemma view_follows_updater_witness :
  MainScreen.mainView Z (fun _ s => s) (fun _ => "") (fun _ => "help")
    (fun _ => "detail") (fun _ => "list") loadedApp = "list"
  /\ MainUpdate.Update Z unit sampleUi (MainUpdate.Program (Main.KeyMsg "j"))
       loadedApp
     = MainUpdate.updateListView Z unit sampleUi
         (MainUpdate.Program (Main.KeyMsg "j")) loadedApp.
Proof.
  destruct (proj1 (view_follows_updater Z unit sampleUi (fun _ s => s)
                     (fun _ => "") (fun _ => "help") (fun _ => "detail")
                     (fun _ => "list") loadedApp
                     (MainUpdate.Program (Main.KeyMsg "j")) eq_refl
                     ltac:(intros k [= <-]; split; discriminate)
                     ltac:(discriminate))
              eq_refl)
    as [(Hview & _)|[(_ & Hid & _)|(_ & _ & Hscreen & Hstep)]].
  - discriminate Hview.
  - discriminate Hid.
  - exact (conj Hscreen Hstep).
Defined.

Lemma header_subtitle_of_reachable_witness :
  exists subtitle,
    MainScreen.headerView (fun _ s => s) (fun l r => (l ++ r)%string)
      (fun s => s) (fun s => s)
      (MainUpdate.core
         (MainUpdate.mkApp
            (MainUpdate.withEntries
               (MainUpdate.withReloading
                  (MainUpdate.core (MainUpdate.initialModel Z 0)) false)
               [entry1])
            0))
    = ("Walgot" ++ subtitle)%string
    /\ subtitle = " - All".
Proof.
  destruct (header_subtitle_of_reachable Z unit sampleUi (fun _ s => s)
              (fun l r => (l ++ r)%string) (fun s => s) 0
              [MainUpdate.Program (Main.wallabagoResponseEntitiesMsg [entry1])]
              (MainUpdate.mkApp
                 (Main.setRows
                    (MainUpdate.withEntries
                       (MainUpdate.withReloading
                          (MainUpdate.core (MainUpdate.initialModel Z 0))
                          false)
                       [entry1])
                    (MainUpdate.rowsFor Z unit sampleUi
                       (MainUpdate.withEntries
                          (MainUpdate.withReloading
                             (MainUpdate.core (MainUpdate.initialModel Z 0))
                             false)
                          [entry1])))
                 0)
              eq_refl)
    as (subtitle & Hheader & _ & _ & Hall).
  exists subtitle. split; [exact Hheader|exact (Hall eq_refl eq_refl)].
Defined.
